(** * Raspberry Pi photo booth ([camera.py]): a shallow embedding

    The script is one Python module: a handful of module-level globals read
    from [camera-config.yaml], three external libraries (PIL, picamera,
    RPi.GPIO) and four functions: [get_base_filename_for_images],
    [overlay_image], [taking_photo] and [main].

    The embedding keeps the shape of the script.  Module globals are the
    fields of [Config]; the devices are one record [World] threaded through a
    state-and-exception monad [M] (a Python exception keeps every mutation
    made before it was raised, so the state survives a [Raise]); what the
    script reads from the outside (button edges and levels, the clock, the
    image files) is supplied as data.  Python floats are IEEE binary64 and
    are computed with the Standard Library's [SpecFloat].

    Library calls raise where the libraries do: [time.sleep] on a negative
    length, [os.makedirs] on the empty path, on a path that exists and
    when the file system refuses, [CAMERA.capture] when the camera
    refuses, [GPIO.add_event_detect] on a pin that is watched already,
    [Image.open] on a file it cannot read, [Image.resize] on a side below
    1, and the float conversions on overflow.  The exceptions carry the
    names they have under Python 3 (Python 2, which the script also
    supports, fails at the same calls with [IOError] or [OSError]).  The
    preview, the overlay calls of the camera and the reads of the GPIO
    are taken to succeed. *)

From Stdlib Require Import ZArith NArith QArith Bool List Lia.
From Stdlib Require Import Strings.Ascii Strings.String.
From Stdlib Require Import Numbers.DecimalString Numbers.DecimalN.
From Stdlib Require Import Floats.SpecFloat.
Import ListNotations.

Local Open Scope Z_scope.

(** ** Python numbers *)

Inductive exn : Type :=
| IOError (path : string)
| ZeroDivisionError
| OverflowError
| ValueError
| FileNotFoundError (path : string)
| FileExistsError (path : string)
| PermissionError (path : string)
| RuntimeError (message : string)
| PiCameraRuntimeError (message : string).

Inductive outcome (A : Type) : Type :=
| Ok (a : A)
| Raise (e : exn).
Arguments Ok {A} a.
Arguments Raise {A} e.

Module PyFloat.

(** binary64: 53 bits of mantissa, infinities at exponent 1024. *)
Definition prec : Z := 53.
Definition emax : Z := 1024.

(** [float(n)] for a Python int: the nearest double, ties to even;
    [OverflowError] when [n] is too large for a double. *)
Definition of_int (n : Z) : outcome spec_float :=
  match binary_normalize prec emax n 0 false with
  | S754_infinity _ => Raise OverflowError
  | f => Ok f
  end.

(** [a / b] on floats: [ZeroDivisionError] when [b] is zero. *)
Definition truediv (a b : spec_float) : outcome spec_float :=
  match b with
  | S754_zero _ => Raise ZeroDivisionError
  | _ => Ok (SFdiv prec emax a b)
  end.

Definition mul (a b : spec_float) : spec_float := SFmul prec emax a b.

(** [int(x)]: truncation toward zero; infinities and NaN raise. *)
Definition to_int (x : spec_float) : outcome Z :=
  match x with
  | S754_zero _ => Ok 0
  | S754_finite s m e =>
      let a := match e with
               | Zneg p => Z.shiftr (Zpos m) (Zpos p)
               | _ => Z.shiftl (Zpos m) e
               end in
      Ok (if s then - a else a)
  | S754_infinity _ => Raise OverflowError
  | S754_nan => Raise ValueError
  end.

End PyFloat.

(** [a < b] on durations, as a boolean. *)
Definition Qlt_bool (a b : Q) : bool := negb (Qle_bool b a).

(** ** Configuration: the module globals read from [camera-config.yaml] *)

Record Config : Type := {
  CAMERA_BUTTON_PIN : Z;
  EXIT_BUTTON_PIN : Z;
  PHOTO_W : Z;
  PHOTO_H : Z;
  SCREEN_W : Z;
  SCREEN_H : Z;
  CAMERA_ROTATION : Z;
  CAMERA_HFLIP : bool;
  DEBOUNCE_TIME : Q;
  TESTMODE_AUTOPRESS_BUTTON : bool;
  SAVE_RAW_IMAGES_FOLDER : string;
  (** [os.path.dirname(os.path.realpath(__file__))] *)
  REAL_PATH : string
}.

(** ** PIL images *)

(** A pixel is an opaque packed value; an image is its size, its mode and
    its raster.  Only the coordinates inside [size] are meaningful. *)
Definition pixel : Type := Z.

Record Image : Type := {
  size : Z * Z;
  mode : string;
  pixel_at : Z -> Z -> pixel
}.

(** [Image.new(mode, size)]: a black canvas.  The mode is taken to be one
    PIL knows and the camera accepts; the script itself only ever passes
    the default ['RGB']. *)
Definition Image_new (m : string) (sz : Z * Z) : Image :=
  {| size := sz; mode := m; pixel_at := fun _ _ => 0 |}.

(** [pad.tobytes()] (or the deprecated [pad.tostring()], same bytes): the
    raster of the image, row by row.  The buffer is kept as the image it
    was read from. *)
Definition tobytes (i : Image) : Image := i.

(** ** Devices and the outside *)

Record DateTime : Type := {
  year : N; month : N; day : N;
  hour : N; minute : N; second : N;
  microsecond : N
}.

(** An overlay renderer of the camera: the buffer it shows, the logical
    size it was declared with, its layer. *)
Record Overlay : Type := {
  o_source : Image;
  o_size : Z * Z;
  o_layer : Z
}.

(** What [overlay_image] returns: a renderer object, or the int [-1]. *)
Inductive OverlayId : Type :=
| Renderer (id : nat)
| IntId (z : Z).

Inductive Event : Type :=
| EvPrint (s : string)
| EvSleep (d : Q)
| EvAddOverlay (id : nat) (source : Image) (sz : Z * Z)
| EvRemoveOverlay (id : nat)
| EvCapture (filename : string) (annotate_text : string)
| EvMakedirs (folder : string)
| EvStartPreview (resolution : Z * Z)
| EvAddEventDetect (pin : Z)
| EvRemoveEventDetect (pin : Z).

Record World : Type := {
  w_overlays : list (nat * Overlay);   (* renderers alive on the camera *)
  w_next : nat;                        (* next fresh renderer *)
  w_annotate : string;                 (* CAMERA.annotate_text *)
  w_files : list string;               (* files written by CAMERA.capture *)
  w_dirs : list string;                (* paths that exist *)
  w_detect : list Z;                   (* pins with edge detection on *)
  w_clock : DateTime;                  (* what datetime.now() returns *)
  w_slept : Q;                         (* seconds slept so far *)
  w_makedirs_error : string -> option exn;
                                       (* what os.makedirs raises, by path *)
  w_capture_error : string -> option exn;
                                       (* what CAMERA.capture raises, by file *)
  w_log : list Event                   (* every effect, newest first *)
}.

Definition set_overlays (f : list (nat * Overlay) -> list (nat * Overlay)) (w : World) : World :=
  {| w_overlays := f (w_overlays w); w_next := w_next w;
     w_annotate := w_annotate w; w_files := w_files w; w_dirs := w_dirs w;
     w_detect := w_detect w; w_clock := w_clock w; w_slept := w_slept w;
     w_makedirs_error := w_makedirs_error w;
     w_capture_error := w_capture_error w; w_log := w_log w |}.

Definition set_next (n : nat) (w : World) : World :=
  {| w_overlays := w_overlays w; w_next := n; w_annotate := w_annotate w;
     w_files := w_files w; w_dirs := w_dirs w; w_detect := w_detect w;
     w_clock := w_clock w; w_slept := w_slept w;
     w_makedirs_error := w_makedirs_error w;
     w_capture_error := w_capture_error w; w_log := w_log w |}.

Definition set_annotate (s : string) (w : World) : World :=
  {| w_overlays := w_overlays w; w_next := w_next w; w_annotate := s;
     w_files := w_files w; w_dirs := w_dirs w; w_detect := w_detect w;
     w_clock := w_clock w; w_slept := w_slept w;
     w_makedirs_error := w_makedirs_error w;
     w_capture_error := w_capture_error w; w_log := w_log w |}.

Definition set_files (f : list string -> list string) (w : World) : World :=
  {| w_overlays := w_overlays w; w_next := w_next w;
     w_annotate := w_annotate w; w_files := f (w_files w);
     w_dirs := w_dirs w; w_detect := w_detect w; w_clock := w_clock w;
     w_slept := w_slept w; w_makedirs_error := w_makedirs_error w;
     w_capture_error := w_capture_error w; w_log := w_log w |}.

Definition set_dirs (f : list string -> list string) (w : World) : World :=
  {| w_overlays := w_overlays w; w_next := w_next w;
     w_annotate := w_annotate w; w_files := w_files w;
     w_dirs := f (w_dirs w); w_detect := w_detect w; w_clock := w_clock w;
     w_slept := w_slept w; w_makedirs_error := w_makedirs_error w;
     w_capture_error := w_capture_error w; w_log := w_log w |}.

Definition set_detect (f : list Z -> list Z) (w : World) : World :=
  {| w_overlays := w_overlays w; w_next := w_next w;
     w_annotate := w_annotate w; w_files := w_files w; w_dirs := w_dirs w;
     w_detect := f (w_detect w); w_clock := w_clock w; w_slept := w_slept w;
     w_makedirs_error := w_makedirs_error w;
     w_capture_error := w_capture_error w; w_log := w_log w |}.

Definition set_clock (t : DateTime) (w : World) : World :=
  {| w_overlays := w_overlays w; w_next := w_next w;
     w_annotate := w_annotate w; w_files := w_files w; w_dirs := w_dirs w;
     w_detect := w_detect w; w_clock := t; w_slept := w_slept w;
     w_makedirs_error := w_makedirs_error w;
     w_capture_error := w_capture_error w; w_log := w_log w |}.

Definition set_slept (f : Q -> Q) (w : World) : World :=
  {| w_overlays := w_overlays w; w_next := w_next w;
     w_annotate := w_annotate w; w_files := w_files w; w_dirs := w_dirs w;
     w_detect := w_detect w; w_clock := w_clock w; w_slept := f (w_slept w);
     w_makedirs_error := w_makedirs_error w;
     w_capture_error := w_capture_error w; w_log := w_log w |}.

Definition emit (e : Event) (w : World) : World :=
  {| w_overlays := w_overlays w; w_next := w_next w;
     w_annotate := w_annotate w; w_files := w_files w; w_dirs := w_dirs w;
     w_detect := w_detect w; w_clock := w_clock w; w_slept := w_slept w;
     w_makedirs_error := w_makedirs_error w;
     w_capture_error := w_capture_error w; w_log := e :: w_log w |}.

(** ** The monad of the script: state, and exceptions that keep the state *)

Definition M (A : Type) : Type := World -> outcome A * World.

Definition ret {A} (a : A) : M A := fun w => (Ok a, w).

Definition bind {A B} (c : M A) (k : A -> M B) : M B :=
  fun w => match c w with
           | (Ok a, w') => k a w'
           | (Raise e, w') => (Raise e, w')
           end.

Definition lift {A} (o : outcome A) : M A := fun w => (o, w).

Definition act (f : World -> World) : M unit := fun w => (Ok tt, f w).

Declare Scope py_scope.
Delimit Scope py_scope with py.
Notation "x <- c ;; k" := (bind c (fun x => k))
  (at level 61, c at next level, right associativity) : py_scope.
Notation "c ;; k" := (bind c (fun _ => k))
  (at level 61, right associativity) : py_scope.
Local Open Scope py_scope.

(** *** Library calls of the script *)

Definition print (s : string) : M unit := act (emit (EvPrint s)).

(** [time.sleep(d)]: [ValueError] for a negative length; otherwise the
    time slept so far grows by [d].  Lengths are exact rationals; the
    limit of what the platform's clock can hold is not part of the
    model. *)
Definition sleep (d : Q) : M unit :=
  fun w =>
    if Qlt_bool d 0 then (Raise ValueError, w)
    else (Ok tt, emit (EvSleep d) (set_slept (fun t => t + d)%Q w)).

(** [GPIO.input(pin)]: the level of the line at the moment of the call.
    A line is given as its level over time, the time being what the script
    has slept so far. *)
Definition GPIO_input (line : Q -> Z) : M Z :=
  fun w => (Ok (line (w_slept w)), w).

(** [CAMERA.add_overlay(source, size=...)]: a fresh renderer on layer 0. *)
Definition add_overlay (source : Image) (sz : Z * Z) : M nat :=
  fun w =>
    let id := w_next w in
    (Ok id,
     emit (EvAddOverlay id source sz)
       (set_next (S id)
          (set_overlays
             (cons (id, {| o_source := source; o_size := sz; o_layer := 0 |})) w))).

(** [o_id.layer = layer] *)
Definition set_layer (id : nat) (layer : Z) : M unit :=
  act (set_overlays
         (map (fun p : nat * Overlay =>
                 if Nat.eqb (fst p) id
                 then (fst p, {| o_source := o_source (snd p);
                                 o_size := o_size (snd p);
                                 o_layer := layer |})
                 else p))).

(** [CAMERA.remove_overlay(o_id)] *)
Definition remove_overlay (id : nat) : M unit :=
  act (fun w =>
         emit (EvRemoveOverlay id)
           (set_overlays
              (filter (fun p : nat * Overlay => negb (Nat.eqb (fst p) id))) w)).

(** [CAMERA.capture(filename)]: a synchronous still capture to that file,
    with the annotation text in force burnt in; when the camera or the
    file system rejects it, the exception comes out and no file is
    recorded. *)
Definition capture (filename : string) : M unit :=
  fun w =>
    match w_capture_error w filename with
    | Some e => (Raise e, w)
    | None =>
        (Ok tt,
         emit (EvCapture filename (w_annotate w)) (set_files (cons filename) w))
    end.

(** [CAMERA.start_preview(resolution=...)] *)
Definition start_preview (resolution : Z * Z) : M unit :=
  act (emit (EvStartPreview resolution)).

(** [os.path.exists(path)]: the empty path never exists. *)
Definition path_exists (path : string) : M bool :=
  fun w =>
    (Ok (negb (String.eqb path EmptyString)
         && existsb (String.eqb path) (w_dirs w)), w).

(** [os.makedirs(folder)]: [FileNotFoundError] for the empty path,
    [FileExistsError] for a path that exists, and whatever else the file
    system answers. *)
Definition makedirs (folder : string) : M unit :=
  fun w =>
    if String.eqb folder EmptyString then (Raise (FileNotFoundError folder), w)
    else if existsb (String.eqb folder) (w_dirs w)
    then (Raise (FileExistsError folder), w)
    else match w_makedirs_error w folder with
         | Some e => (Raise e, w)
         | None => (Ok tt, emit (EvMakedirs folder) (set_dirs (cons folder) w))
         end.

(** [GPIO.add_event_detect(pin, GPIO.FALLING)]: [RuntimeError] on a pin
    that has edge detection already. *)
Definition add_event_detect (pin : Z) : M unit :=
  fun w =>
    if existsb (Z.eqb pin) (w_detect w)
    then (Raise (RuntimeError
                   "Conflicting edge detection already enabled for this GPIO channel"),
          w)
    else (Ok tt, emit (EvAddEventDetect pin) (set_detect (cons pin) w)).

(** [GPIO.remove_event_detect(pin)] *)
Definition remove_event_detect (pin : Z) : M unit :=
  act (fun w =>
         emit (EvRemoveEventDetect pin)
           (set_detect (filter (fun p => negb (p =? pin))) w)).

(** ** Python strings *)

Local Open Scope string_scope.
Local Open Scope Z_scope.

(** [s.split(sep)] for a one-character separator. *)
Fixpoint split (sep : ascii) (s : string) : list string :=
  match s with
  | EmptyString => [EmptyString]
  | String c s' =>
      if Ascii.eqb c sep then EmptyString :: split sep s'
      else match split sep s' with
           | h :: t => String c h :: t
           | [] => [String c EmptyString]
           end
  end.

(** [s.replace(old, new)] for one-character [old] and [new]. *)
Fixpoint replace (old new : ascii) (s : string) : string :=
  match s with
  | EmptyString => EmptyString
  | String c s' => String (if Ascii.eqb c old then new else c) (replace old new s')
  end.

(** The decimal digits of a natural number. *)
Definition decimal (n : N) : string := NilEmpty.string_of_uint (N.to_uint n).

Fixpoint zeros (n : nat) : string :=
  match n with
  | O => EmptyString
  | S n' => String "0" (zeros n')
  end.

(** ["%0<width>d" % n] *)
Definition zfill (width : nat) (n : N) : string :=
  zeros (width - String.length (decimal n)) ++ decimal n.

(** [str(t)] for a naive [datetime]: [isoformat(sep=' ')], whose
    fractional part is printed only when the microseconds are not 0. *)
Definition str_datetime (t : DateTime) : string :=
  zfill 4 (year t) ++ "-" ++ zfill 2 (month t) ++ "-" ++ zfill 2 (day t)
  ++ " "
  ++ zfill 2 (hour t) ++ ":" ++ zfill 2 (minute t) ++ ":" ++ zfill 2 (second t)
  ++ (if N.eqb (microsecond t) 0 then EmptyString
      else "." ++ zfill 6 (microsecond t)).

(** ** The main loop's view of the outside *)

(** What one iteration of the loop reads: the value of each
    [GPIO.event_detected] call, the two lines [GPIO.input] samples (their
    level over the time slept), and the clock. *)
Record CycleInput : Type := {
  cam_event : bool;
  cam_level : Q -> Z;
  exit_event : bool;
  exit_level : Q -> Z;
  cycle_clock : DateTime
}.

(** How an iteration ends: next iteration, [return], [break]. *)
Inductive LoopCtl : Type := Continue | Return | Break.

(** How [main] ends: still polling when the readings run out, returned
    from inside the loop, or fell out of it by [break]. *)
Inductive LoopExit : Type := Polling | Returned | Broke.

Definition __version__ : string := "2.1".

Section Booth.

Variable cfg : Config.

(** The image files [Image.open] can read, by path. *)
Variable image_files : string -> option Image.
(** The raster PIL's [Image.ANTIALIAS] filter computes for an image and a
    target size. *)
Variable resample : Image -> Z * Z -> Z -> Z -> pixel.
(** The pixel conversion PIL applies when modes differ, by source and
    target mode. *)
Variable convert : string -> string -> pixel -> pixel.

Definition Image_open (path : string) : M Image :=
  lift (match image_files path with
        | Some i => Ok i
        | None => Raise (IOError path)
        end).

(** [img.resize(size, Image.ANTIALIAS)]: a copy of the requested size;
    [ValueError] when a side is below 1. *)
Definition resize (img : Image) (sz : Z * Z) : outcome Image :=
  if (fst sz <? 1) || (snd sz <? 1) then Raise ValueError
  else Ok {| size := sz; mode := mode img; pixel_at := resample img sz |}.

(** [pad.paste(img, box)]: the rectangle of [pad] at [box] takes the
    pixels of [img], clipped to [pad]; the rest of [pad] is untouched. *)
Definition paste (pad img : Image) (box : Z * Z) : Image :=
  {| size := size pad;
     mode := mode pad;
     pixel_at := fun x y =>
       let (ox, oy) := box in
       if (ox <=? x) && (x <? ox + fst (size img))
          && (oy <=? y) && (y <? oy + snd (size img))
       then convert (mode img) (mode pad) (pixel_at img (x - ox) (y - oy))
       else pixel_at pad x y |}.

(** *** [overlay_image] *)

(** Lines 157-162: the resize of an image wider than the screen. *)
Definition fit_to_screen (img : Image) : outcome Image :=
  if SCREEN_W cfg <? fst (size img) then
    let basewidth := SCREEN_W cfg in
    match PyFloat.of_int (fst (size img)) with
    | Raise e => Raise e
    | Ok fw =>
    match PyFloat.of_int basewidth with
    | Raise e => Raise e
    | Ok fb =>
    match PyFloat.truediv fb fw with
    | Raise e => Raise e
    | Ok wpercent =>
    match PyFloat.of_int (snd (size img)) with
    | Raise e => Raise e
    | Ok fh =>
    match PyFloat.to_int (PyFloat.mul fh wpercent) with
    | Raise e => Raise e
    | Ok hsize => resize img (basewidth, hsize)
    end end end end end
  else Ok img.

(** Lines 174-180: the canvas padded to the camera's 32x16 blocks, with
    the image pasted at its top-left corner. *)
Definition padded (m : string) (img : Image) : Image :=
  let pad := Image_new m (((fst (size img) + 31) / 32) * 32,
                          ((snd (size img) + 15) / 16) * 16) in
  paste pad img (0, 0).

Definition overlay_image (image_path : string) (duration : Q) (layer : Z)
           (m : string) : M OverlayId :=
  img <- Image_open image_path ;;
  img <- lift (fit_to_screen img) ;;
  let pad := padded m img in
  let padded_img_data := tobytes pad in
  o_id <- add_overlay padded_img_data (size img) ;;
  set_layer o_id layer ;;
  if Qlt_bool 0 duration then
    sleep duration ;;
    remove_overlay o_id ;;
    ret (IntId (-1))
  else
    ret (Renderer o_id).

(** *** [get_base_filename_for_images] *)

Definition now : M DateTime := fun w => (Ok (w_clock w), w).

Definition get_base_filename_for_images : M string :=
  t <- now ;;
  let base_filename := nth 0 (split "." (str_datetime t)) "" in
  let base_filename := replace " " "_" base_filename in
  let base_filename := replace ":" "-" base_filename in
  let base_filepath :=
    REAL_PATH cfg ++ "/" ++ SAVE_RAW_IMAGES_FOLDER cfg ++ "/" ++ base_filename in
  ret base_filepath.

(** *** [taking_photo] *)

Definition taking_photo (filename_prefix : string) : M unit :=
  let filename := filename_prefix ++ ".jpg" in
  act (set_annotate "") ;;
  capture filename ;;
  print ("Photo saved: " ++ filename) ;;
  print "All done!" ;;
  let finished_image := REAL_PATH cfg ++ "/assets/success_1.png" in
  overlay_image finished_image 2%Q 3 "RGB" ;;
  ret tt.

(** *** [health_test_required_folders] *)

(** The [for] loop, with [folders_checked] threaded through. *)
Fixpoint check_folders (folders_list folders_checked : list string) : M unit :=
  match folders_list with
  | [] => ret tt
  | folder :: rest =>
      folders_checked <-
        (if existsb (String.eqb folder) folders_checked
         then print ("ERROR: Cannot use same folder path (" ++ folder
                     ++ ") twice. Refer config file.") ;;
              ret folders_checked
         else ret (folders_checked ++ [folder])%list) ;;
      present <- path_exists folder ;;
      (if negb present
       then print ("Creating folder: " ++ folder) ;; makedirs folder
       else ret tt) ;;
      check_folders rest folders_checked
  end.

Definition health_test_required_folders : M unit :=
  check_folders [SAVE_RAW_IMAGES_FOLDER cfg] [].

(** *** [main] *)

(** Lines 250-261: the two debounced button reads.  [None] is Python's
    [None], [Some true] is [True]. *)
Definition poll_buttons (ci : CycleInput) : M (option bool * option bool) :=
  let photo_button_is_pressed : option bool := None in
  let exit_button_is_pressed : option bool := None in
  photo_button_is_pressed <-
    (if cam_event ci then
       sleep (DEBOUNCE_TIME cfg) ;;
       level <- GPIO_input (cam_level ci) ;;
       if level =? 0 then ret (Some true) else ret photo_button_is_pressed
     else ret photo_button_is_pressed) ;;
  exit_button_is_pressed <-
    (if exit_event ci then
       sleep (DEBOUNCE_TIME cfg) ;;
       level <- GPIO_input (exit_level ci) ;;
       if level =? 0 then ret (Some true) else ret exit_button_is_pressed
     else ret exit_button_is_pressed) ;;
  ret (photo_button_is_pressed, exit_button_is_pressed).

(** One iteration of [while True]. *)
Definition loop_body (ci : CycleInput) : M LoopCtl :=
  pressed <- poll_buttons ci ;;
  let (photo_button_is_pressed, exit_button_is_pressed) := pressed in
  match exit_button_is_pressed with
  | Some _ => ret Return
  | None =>
      let photo_button_is_pressed :=
        if TESTMODE_AUTOPRESS_BUTTON cfg then Some true
        else photo_button_is_pressed in
      match photo_button_is_pressed with
      | None => sleep (1 # 10) ;; ret Continue
      | Some _ =>
          print "Button pressed! You folks are in for a treat." ;;
          remove_event_detect (CAMERA_BUTTON_PIN cfg) ;;
          remove_event_detect (EXIT_BUTTON_PIN cfg) ;;
          filename_prefix <- get_base_filename_for_images ;;
          taking_photo filename_prefix ;;
          if TESTMODE_AUTOPRESS_BUTTON cfg then ret Break
          else
            add_event_detect (CAMERA_BUTTON_PIN cfg) ;;
            add_event_detect (EXIT_BUTTON_PIN cfg) ;;
            print "Press the button to take a photo" ;;
            ret Continue
      end
  end.

(** The loop, run on the readings of its first iterations.  Each
    iteration starts with the outside setting the clock it will read. *)
Fixpoint main_loop (inputs : list CycleInput) : M LoopExit :=
  match inputs with
  | [] => ret Polling
  | ci :: rest =>
      act (set_clock (cycle_clock ci)) ;;
      ctl <- loop_body ci ;;
      match ctl with
      | Continue => main_loop rest
      | Return => ret Returned
      | Break => ret Broke
      end
  end.

Definition main (inputs : list CycleInput) : M LoopExit :=
  print "Welcome to the photo booth!" ;;
  print ("(version " ++ __version__ ++ ")") ;;
  print "" ;;
  print "Press the 'Take photo' button to take a photo" ;;
  print "Use [Ctrl] + [\] to exit" ;;
  print "" ;;
  health_test_required_folders ;;
  start_preview (SCREEN_W cfg, SCREEN_H cfg) ;;
  let intro_image_1 := REAL_PATH cfg ++ "/assets/intro_1.png" in
  overlay_image intro_image_1 3%Q 3 "RGB" ;;
  add_event_detect (CAMERA_BUTTON_PIN cfg) ;;
  add_event_detect (EXIT_BUTTON_PIN cfg) ;;
  main_loop inputs.

End Booth.

(** * Vocabulary of the statements *)

(** [r] is the least multiple of [k] that is at least [n]. *)
Definition least_multiple_ge (k n r : Z) : Prop :=
  (k | r) /\ n <= r /\ forall r', (k | r') -> n <= r' -> r <= r'.

(** The events a call of [overlay_image] adds after submitting its overlay
    [id], newest first: nothing, or the hold and the removal. *)
Definition hold_events (id : nat) (duration : Q) : list Event :=
  if Qlt_bool 0 duration then [EvRemoveOverlay id; EvSleep duration] else [].

Definition is_add_event_detect (e : Event) : bool :=
  match e with EvAddEventDetect _ => true | _ => false end.

Definition is_capture (e : Event) : bool :=
  match e with EvCapture _ _ => true | _ => false end.

(** Two clock readings within the same wall-clock second. *)
Definition same_second (a b : DateTime) : Prop :=
  year a = year b /\ month a = month b /\ day a = day b /\
  hour a = hour b /\ minute a = minute b /\ second a = second b.

(** [YYYY-MM-DD_HH-MM-SS] *)
Definition timestamp (t : DateTime) : string :=
  zfill 4 (year t) ++ "-" ++ zfill 2 (month t) ++ "-" ++ zfill 2 (day t)
  ++ "_"
  ++ zfill 2 (hour t) ++ "-" ++ zfill 2 (minute t) ++ "-" ++ zfill 2 (second t).

(** The ranges Python's [datetime] keeps its fields in. *)
Definition valid_datetime (t : DateTime) : Prop :=
  (1 <= year t <= 9999 /\ 1 <= month t <= 12 /\ 1 <= day t <= 31 /\
   hour t <= 23 /\ minute t <= 59 /\ second t <= 59 /\
   microsecond t <= 999999)%N.

(** [int(float(h) * (sw / float(w)))] in doubles: the height line 161
    computes for an image [w] by [h] on a screen [sw] wide. *)
Definition scaled_height (h w sw : Z) : outcome Z :=
  match PyFloat.of_int w with
  | Raise e => Raise e
  | Ok fw =>
  match PyFloat.of_int sw with
  | Raise e => Raise e
  | Ok fb =>
  match PyFloat.truediv fb fw with
  | Raise e => Raise e
  | Ok wpercent =>
  match PyFloat.of_int h with
  | Raise e => Raise e
  | Ok fh => PyFloat.to_int (PyFloat.mul fh wpercent)
  end end end end.

(** The world after an overlay was shown for a while and removed: lines
    190-195 of [overlay_image], when the duration is above 0. *)
Definition held_overlay (src : Image) (sz : Z * Z) (duration : Q) (layer : Z)
           (w : World) : World :=
  snd ((o_id <- add_overlay src sz ;;
        set_layer o_id layer ;;
        sleep duration ;;
        remove_overlay o_id) w).

Definition count_captures (log : list Event) : nat :=
  List.length (filter is_capture log).

(** [c in s] *)
Fixpoint occurs (c : ascii) (s : string) : bool :=
  match s with
  | EmptyString => false
  | String a s' => Ascii.eqb a c || occurs c s'
  end.

Definition is_digit (c : ascii) : bool :=
  match c with
  | "0" | "1" | "2" | "3" | "4" | "5" | "6" | "7" | "8" | "9" => true
  | _ => false
  end%char.

Fixpoint all_digits (s : string) : bool :=
  match s with
  | EmptyString => true
  | String a s' => is_digit a && all_digits s'
  end.

(** [YYYY-MM-DD HH:MM:SS], the part of [str(t)] before the fraction. *)
Definition to_the_second (t : DateTime) : string :=
  zfill 4 (year t) ++ "-" ++ zfill 2 (month t) ++ "-" ++ zfill 2 (day t)
  ++ " "
  ++ zfill 2 (hour t) ++ ":" ++ zfill 2 (minute t) ++ ":" ++ zfill 2 (second t).

(** ** Sample data for the concrete runs *)

Definition booth_cfg (testmode : bool) : Config :=
  {| CAMERA_BUTTON_PIN := 21; EXIT_BUTTON_PIN := 13;
     PHOTO_W := 1920; PHOTO_H := 1152;
     SCREEN_W := 800; SCREEN_H := 480;
     CAMERA_ROTATION := 0; CAMERA_HFLIP := true;
     DEBOUNCE_TIME := 3 # 10;
     TESTMODE_AUTOPRESS_BUTTON := testmode;
     SAVE_RAW_IMAGES_FOLDER := "photos";
     REAL_PATH := "/home/pi/photo_booth" |}.

(** The same booth with [DEBOUNCE_TIME: -0.3] in its configuration. *)
Definition negative_debounce_cfg : Config :=
  {| CAMERA_BUTTON_PIN := 21; EXIT_BUTTON_PIN := 13;
     PHOTO_W := 1920; PHOTO_H := 1152;
     SCREEN_W := 800; SCREEN_H := 480;
     CAMERA_ROTATION := 0; CAMERA_HFLIP := true;
     DEBOUNCE_TIME := - (3 # 10);
     TESTMODE_AUTOPRESS_BUTTON := false;
     SAVE_RAW_IMAGES_FOLDER := "photos";
     REAL_PATH := "/home/pi/photo_booth" |}.

(** The same booth with [SAVE_RAW_IMAGES_FOLDER: ''] in its
    configuration. *)
Definition no_folder_cfg : Config :=
  {| CAMERA_BUTTON_PIN := 21; EXIT_BUTTON_PIN := 13;
     PHOTO_W := 1920; PHOTO_H := 1152;
     SCREEN_W := 800; SCREEN_H := 480;
     CAMERA_ROTATION := 0; CAMERA_HFLIP := true;
     DEBOUNCE_TIME := 3 # 10;
     TESTMODE_AUTOPRESS_BUTTON := false;
     SAVE_RAW_IMAGES_FOLDER := "";
     REAL_PATH := "/home/pi/photo_booth" |}.

(** A gradient raster, to tell pixels apart. *)
Definition gradient (w h : Z) (m : string) : Image :=
  {| size := (w, h); mode := m; pixel_at := fun x y => x + 1000 * y |}.

(** The two bundled assets, and one picture wider than the screen. *)
Definition booth_files (path : string) : option Image :=
  if String.eqb path "/home/pi/photo_booth/assets/intro_1.png"
  then Some (gradient 800 480 "RGB")
  else if String.eqb path "/home/pi/photo_booth/assets/success_1.png"
  then Some (gradient 640 400 "RGB")
  else if String.eqb path "/home/pi/wide.png"
  then Some (gradient 928 145 "RGB")
  else None.

(** Nearest-neighbour sampling stands in for the antialiasing filter. *)
Definition nearest (img : Image) (sz : Z * Z) (x y : Z) : pixel :=
  pixel_at img (x * fst (size img) / fst sz) (y * snd (size img) / snd sz).

Definition same_mode (src dst : string) (p : pixel) : pixel := p.

Definition new_year_eve (us : N) : DateTime :=
  {| year := 2017; month := 12; day := 31;
     hour := 23; minute := 59; second := 59; microsecond := us |}.

(** What one iteration reads: camera edge and level, exit edge and level,
    on lines that keep their level. *)
Definition reading (ce : bool) (cl : Z) (ee : bool) (el : Z) : CycleInput :=
  {| cam_event := ce; cam_level := fun _ => cl;
     exit_event := ee; exit_level := fun _ => el;
     cycle_clock := new_year_eve 250000 |}.


(** A booth that has not started: nothing slept, nothing refused. *)
Definition booth_world : World :=
  {| w_overlays := []; w_next := 0; w_annotate := "smile";
     w_files := []; w_dirs := []; w_detect := [];
     w_clock := new_year_eve 250000; w_slept := 0;
     w_makedirs_error := fun _ => None; w_capture_error := fun _ => None;
     w_log := [] |}.


(** [overlay_image('/home/pi/wide.png')] and [overlay_image(..., 2)] on the
    sample booth: an 928x145 picture on an 800 pixel wide screen. *)
Definition wide_run (duration : Q) : outcome OverlayId * World :=
  overlay_image (booth_cfg false) booth_files nearest same_mode
    "/home/pi/wide.png" duration 3 "RGB" booth_world.

(** ** Vocabulary of the further properties *)

(** Every live renderer is older than the next fresh one: what picamera
    guarantees of the renderers it hands out. *)
Definition fresh_ids (w : World) : Prop :=
  Forall (fun p : nat * Overlay => (fst p < w_next w)%nat) (w_overlays w).

(** The world after a sleep of [d] seconds. *)
Definition slept (d : Q) (w : World) : World :=
  emit (EvSleep d) (set_slept (fun t => t + d)%Q w).

Definition is_add_overlay (e : Event) : bool :=
  match e with EvAddOverlay _ _ _ => true | _ => false end.

(** The photo folder is missing and cannot be created: it has no name, or
    the file system answers [os.makedirs] with [e]. *)
Definition makedirs_refused (cfg : Config) (w : World) (e : exn) : Prop :=
  (SAVE_RAW_IMAGES_FOLDER cfg = "" /\
   e = FileNotFoundError (SAVE_RAW_IMAGES_FOLDER cfg)) \/
  (SAVE_RAW_IMAGES_FOLDER cfg <> "" /\
   ~ In (SAVE_RAW_IMAGES_FOLDER cfg) (w_dirs w) /\
   w_makedirs_error w (SAVE_RAW_IMAGES_FOLDER cfg) = Some e).









(** Reading a string of decimal digits back as a number. *)
Definition parse_decimal (s : string) : option N :=
  option_map N.of_uint (NilEmpty.uint_of_string s).




(** The photo folder is there, or it has a name and the file system lets
    the script create it. *)
Definition folder_ready (cfg : Config) (w : World) : Prop :=
  SAVE_RAW_IMAGES_FOLDER cfg <> "" /\
  (In (SAVE_RAW_IMAGES_FOLDER cfg) (w_dirs w) \/
   w_makedirs_error w (SAVE_RAW_IMAGES_FOLDER cfg) = None).

(** ** Startup: the configuration file (lines 57-92) *)

(** A parsed YAML document. *)
#[warnings="-register-all"]
Inductive yaml : Type :=
| YNull
| YBool (b : bool)
| YInt (z : Z)
| YFloat (q : Q)
| YStr (s : string)
| YSeq (items : list yaml)
| YMap (entries : list (yaml * yaml)).

(** What [yaml.safe_load(stream)] does: a document, or [yaml.YAMLError]. *)
Inductive safe_load_result : Type :=
| Document (d : yaml)
| YAMLError (message : string).

(** [d[key]] for a string key and a dict [d], given by its items (their
    keys are distinct; a key that is not a string is never equal to
    [key]). *)
Fixpoint dict_get (key : string) (entries : list (yaml * yaml)) : option yaml :=
  match entries with
  | [] => None
  | (YStr k, v) :: rest => if String.eqb k key then Some v else dict_get key rest
  | _ :: rest => dict_get key rest
  end.

(** How a subscript ends: a value, [KeyError(key)] on a dict without the
    key, [TypeError] on anything that is not a dict. *)
Inductive subscript (A : Type) : Type :=
| Got (a : A)
| KeyError (key : string)
| TypeError.
Arguments Got {A} a.
Arguments KeyError {A} key.
Arguments TypeError {A}.

(** [CONFIG[key]] *)
Definition getitem (CONFIG : yaml) (key : string) : subscript yaml :=
  match CONFIG with
  | YMap entries =>
      match dict_get key entries with
      | Some v => Got v
      | None => KeyError key
      end
  | _ => TypeError
  end.

Definition and_then {A B} (c : subscript A) (k : A -> subscript B) : subscript B :=
  match c with
  | Got a => k a
  | KeyError key => KeyError key
  | TypeError => TypeError
  end.

(** The module globals as they are read, before any use gives them a
    type. *)
Record RawConfig : Type := {
  raw_CAMERA_BUTTON_PIN : yaml;
  raw_EXIT_BUTTON_PIN : yaml;
  raw_PHOTO_W : yaml;
  raw_PHOTO_H : yaml;
  raw_SCREEN_W : yaml;
  raw_SCREEN_H : yaml;
  raw_CAMERA_ROTATION : yaml;
  raw_CAMERA_HFLIP : yaml;
  raw_DEBOUNCE_TIME : yaml;
  raw_TESTMODE_AUTOPRESS_BUTTON : yaml;
  raw_SAVE_RAW_IMAGES_FOLDER : yaml
}.

(** Lines 66-78: the eleven subscripts, in order. *)
Definition required_config (CONFIG : yaml) : subscript RawConfig :=
  and_then (getitem CONFIG "CAMERA_BUTTON_PIN") (fun v1 =>
  and_then (getitem CONFIG "EXIT_BUTTON_PIN") (fun v2 =>
  and_then (getitem CONFIG "PHOTO_W") (fun v3 =>
  and_then (getitem CONFIG "PHOTO_H") (fun v4 =>
  and_then (getitem CONFIG "SCREEN_W") (fun v5 =>
  and_then (getitem CONFIG "SCREEN_H") (fun v6 =>
  and_then (getitem CONFIG "CAMERA_ROTATION") (fun v7 =>
  and_then (getitem CONFIG "CAMERA_HFLIP") (fun v8 =>
  and_then (getitem CONFIG "DEBOUNCE_TIME") (fun v9 =>
  and_then (getitem CONFIG "TESTMODE_AUTOPRESS_BUTTON") (fun v10 =>
  and_then (getitem CONFIG "SAVE_RAW_IMAGES_FOLDER") (fun v11 =>
  Got {| raw_CAMERA_BUTTON_PIN := v1; raw_EXIT_BUTTON_PIN := v2;
         raw_PHOTO_W := v3; raw_PHOTO_H := v4;
         raw_SCREEN_W := v5; raw_SCREEN_H := v6;
         raw_CAMERA_ROTATION := v7; raw_CAMERA_HFLIP := v8;
         raw_DEBOUNCE_TIME := v9; raw_TESTMODE_AUTOPRESS_BUTTON := v10;
         raw_SAVE_RAW_IMAGES_FOLDER := v11 |}))))))))))).

Definition PATH_TO_CONFIG : string := "camera-config.yaml".
Definition PATH_TO_CONFIG_EXAMPLE : string := "camera-config.example.yaml".

(** How the start of the script ends: the globals are set, [sys.exit()]
    was called, or an exception went uncaught. *)
Inductive startup : Type :=
| Configured (c : RawConfig)
| SysExit
| UncaughtTypeError.

(** [str(exc)] for [KeyError(key)]: the key in quotes. *)
Definition str_KeyError (key : string) : string := "'" ++ key ++ "'".

(** Lines 57-87, from what [yaml.safe_load] did: the lines printed and how
    the startup ends. *)
Definition read_config (loaded : safe_load_result) : list string * startup :=
  let '(printed, CONFIG) :=
    match loaded with
    | Document d => ([], d)
    | YAMLError message => ([message], YMap [])
    end in
  match required_config CONFIG with
  | Got c => (printed, Configured c)
  | KeyError key =>
      (List.app printed
        [""; "ERROR:";
         (" - Problems exist within configuration file: [" ++ PATH_TO_CONFIG
            ++ "].")%string;
         (" - The expected configuration item " ++ str_KeyError key
            ++ " was not found.")%string;
         (" - Please refer to the example file [" ++ PATH_TO_CONFIG_EXAMPLE
            ++ "], for reference.")%string;
         ""],
       SysExit)
  | TypeError => (printed, UncaughtTypeError)
  end.

(** The keys the script needs, in the order it reads them. *)
Definition required_keys : list string :=
  ["CAMERA_BUTTON_PIN"; "EXIT_BUTTON_PIN"; "PHOTO_W"; "PHOTO_H";
   "SCREEN_W"; "SCREEN_H"; "CAMERA_ROTATION"; "CAMERA_HFLIP";
   "DEBOUNCE_TIME"; "TESTMODE_AUTOPRESS_BUTTON"; "SAVE_RAW_IMAGES_FOLDER"].

(** The first required key a dict lacks. *)
Definition first_missing (entries : list (yaml * yaml)) : option string :=
  find (fun key => match dict_get key entries with
                   | None => true
                   | Some _ => false
                   end) required_keys.

(** No image file can be opened. *)
Definition no_files (path : string) : option Image := None.


(** * Properties of [overlay_image] *)

Lemma Qlt_bool_iff (a b : Q) : Qlt_bool a b = true <-> (a < b)%Q.
Proof.
  unfold Qlt_bool. rewrite negb_true_iff.
  split; intro H.
  - apply Qnot_le_lt. intro L. apply Qle_bool_iff in L. congruence.
  - destruct (Qle_bool b a) eqn:E; [|reflexivity].
    apply Qle_bool_iff in E. exfalso. exact (Qlt_not_le _ _ H E).
Qed.

(** A positive duration is not negative: the sleeps of the script that
    hold an overlay never raise. *)
Lemma Qlt_bool_pos_not_neg (d : Q) : Qlt_bool 0 d = true -> Qlt_bool d 0 = false.
Proof.
  intros H. apply Qlt_bool_iff in H.
  destruct (Qlt_bool d 0) eqn:E; [|reflexivity].
  apply Qlt_bool_iff in E. exfalso.
  exact (Qlt_irrefl 0 (Qlt_trans _ _ _ H E)).
Qed.


Section OverlayFacts.

Variable cfg : Config.
Variable image_files : string -> option Image.
Variable resample : Image -> Z * Z -> Z -> Z -> pixel.
Variable convert : string -> string -> pixel -> pixel.

Local Abbreviation fit_to_screen := (fit_to_screen cfg resample).
Local Abbreviation padded := (padded convert).
Local Abbreviation overlay_image := (overlay_image cfg image_files resample convert).

(** What the call does once the image is loaded and fitted. *)
Lemma overlay_image_loaded path duration layer m w img0 img :
  image_files path = Some img0 ->
  fit_to_screen img0 = Ok img ->
  overlay_image path duration layer m w =
  (o_id <- add_overlay (tobytes (padded m img)) (size img) ;;
   set_layer o_id layer ;;
   if Qlt_bool 0 duration then
     sleep duration ;; remove_overlay o_id ;; ret (IntId (-1))
   else ret (Renderer o_id)) w.
Proof.
  intros Hopen Hfit.
  unfold overlay_image, Image_open, bind at 1, lift.
  rewrite Hopen. unfold bind at 1. rewrite Hfit. reflexivity.
Qed.

(** A call that returns has loaded and fitted its image. *)
Lemma overlay_image_returns path duration layer m w r w' :
  overlay_image path duration layer m w = (Ok r, w') ->
  exists img0 img,
    image_files path = Some img0 /\ fit_to_screen img0 = Ok img.
Proof.
  unfold overlay_image, Image_open, bind at 1, lift.
  destruct (image_files path) as [img0|]; [|discriminate].
  unfold bind at 1.
  destruct (fit_to_screen img0) as [img|e] eqn:Hfit; [|discriminate].
  intros _. exists img0, img. split; [reflexivity | exact Hfit].
Qed.

(** Rounding up with floor division gives the least multiple. *)
Lemma round_up_least (k n : Z) :
  0 < k -> least_multiple_ge k n ((n + (k - 1)) / k * k).
Proof.
  intros Hk. unfold least_multiple_ge.
  pose proof (Z.div_mod (n + (k - 1)) k ltac:(lia)) as Hdm.
  pose proof (Z.mod_pos_bound (n + (k - 1)) k Hk) as Hr.
  repeat split.
  - exists ((n + (k - 1)) / k). reflexivity.
  - nia.
  - intros r' [c ->] Hle.
    apply Z.mul_le_mono_nonneg_r; [lia|].
    assert ((n + (k - 1)) / k < c + 1) as Hlt
      by (apply Z.div_lt_upper_bound; [exact Hk | nia]).
    lia.
Qed.

(** The world and the result of the part of [overlay_image] that follows
    the loading of the image. *)
Lemma overlay_image_effect path duration layer m w r w' :
  overlay_image path duration layer m w = (Ok r, w') ->
  exists img0 img,
    image_files path = Some img0 /\ fit_to_screen img0 = Ok img /\
    r = (if Qlt_bool 0 duration then IntId (-1) else Renderer (w_next w)) /\
    w_log w' = (hold_events (w_next w) duration
                ++ EvAddOverlay (w_next w) (padded m img) (size img) :: w_log w)%list /\
    (In (w_next w) (map fst (w_overlays w')) <-> Qlt_bool 0 duration = false) /\
    w_files w' = w_files w /\ w_detect w' = w_detect w /\
    w_annotate w' = w_annotate w /\ w_clock w' = w_clock w /\
    w_dirs w' = w_dirs w.
Proof.
  intros Hrun.
  destruct (overlay_image_returns _ _ _ _ _ _ _ Hrun) as (img0 & img & Hopen & Hfit).
  exists img0, img. split; [exact Hopen|]. split; [exact Hfit|].
  rewrite (overlay_image_loaded _ duration layer m w _ _ Hopen Hfit) in Hrun.
  unfold hold_events.
  unfold bind, add_overlay, set_layer, act, sleep, remove_overlay, ret in Hrun.
  destruct (Qlt_bool 0 duration) eqn:Hd;
    [rewrite (Qlt_bool_pos_not_neg _ Hd) in Hrun|];
    inversion Hrun; subst; clear Hrun; simpl;
    rewrite ?Nat.eqb_refl; simpl; rewrite ?Nat.eqb_refl; simpl.
  - repeat split; try reflexivity; try discriminate.
    intros Hin. exfalso.
    apply in_map_iff in Hin. destruct Hin as (p & Hp & Hin).
    apply filter_In in Hin. destruct Hin as [_ Hne].
    rewrite Hp, Nat.eqb_refl in Hne. discriminate.
  - repeat split; try reflexivity. intros _. left. reflexivity.
Qed.

(** C1: the buffer [overlay_image] submits is as wide as the least
    multiple of 32 that is at least the width of the (possibly resized)
    image and as high as the least multiple of 16 that is at least its
    height, and the size declared with it is the size of that image, not
    the size of the buffer. *)
Theorem overlay_image_buffer_alignment path duration layer m w r w' :
  overlay_image path duration layer m w = (Ok r, w') ->
  exists img0 img src,
    image_files path = Some img0 /\ fit_to_screen img0 = Ok img /\
    w_log w' = (hold_events (w_next w) duration
                ++ EvAddOverlay (w_next w) src (size img) :: w_log w)%list /\
    least_multiple_ge 32 (fst (size img)) (fst (size src)) /\
    least_multiple_ge 16 (snd (size img)) (snd (size src)).
Proof.
  intros Hrun.
  destruct (overlay_image_effect _ _ _ _ _ _ _ Hrun)
    as (img0 & img & Hopen & Hfit & _ & Hlog & _).
  exists img0, img, (padded m img).
  repeat match goal with |- _ /\ _ => split end; try assumption.
  - exact (round_up_least 32 (fst (size img)) ltac:(lia)).
  - exact (round_up_least 16 (snd (size img)) ltac:(lia)).
Qed.

(** C4: a call with a hold duration above 0 sleeps, removes the overlay
    it created and returns -1; a call with duration 0 returns the renderer
    it created and leaves it on the camera. *)
Theorem overlay_image_hold_modes path duration layer m w r w' :
  overlay_image path duration layer m w = (Ok r, w') ->
  ((0 < duration)%Q ->
     r = IntId (-1) /\
     ~ In (w_next w) (map fst (w_overlays w')) /\
     exists src sz,
       w_log w' = EvRemoveOverlay (w_next w) :: EvSleep duration
                  :: EvAddOverlay (w_next w) src sz :: w_log w) /\
  ((duration == 0)%Q ->
     r = Renderer (w_next w) /\
     In (w_next w) (map fst (w_overlays w')) /\
     exists src sz, w_log w' = EvAddOverlay (w_next w) src sz :: w_log w).
Proof.
  intros Hrun.
  destruct (overlay_image_effect _ _ _ _ _ _ _ Hrun)
    as (img0 & img & _ & _ & Hr & Hlog & Hin & _).
  unfold hold_events in Hlog.
  split; intros Hd.
  - apply Qlt_bool_iff in Hd. rewrite Hd in *.
    split; [exact Hr|]. split.
    + intros H. apply Hin in H. discriminate.
    + eexists _, _. exact Hlog.
  - assert (Qlt_bool 0 duration = false) as Hf.
    { destruct (Qlt_bool 0 duration) eqn:E; [|reflexivity].
      apply Qlt_bool_iff in E. rewrite Hd in E.
      exfalso. exact (Qlt_irrefl 0 E). }
    rewrite Hf in *.
    split; [exact Hr|]. split.
    + apply Hin. reflexivity.
    + eexists _, _. exact Hlog.
Qed.

(** C7: the padded canvas is at least as wide and as high as the image
    pasted on it, and every pixel of the image is on the canvas at its own
    coordinates, since the image is pasted at (0, 0). *)
Theorem padded_never_crops m img :
  fst (size img) <= fst (size (padded m img)) /\
  snd (size img) <= snd (size (padded m img)) /\
  forall x y,
    0 <= x < fst (size img) -> 0 <= y < snd (size img) ->
    pixel_at (padded m img) x y = convert (mode img) m (pixel_at img x y).
Proof.
  split; [|split].
  - apply (round_up_least 32 (fst (size img))). lia.
  - apply (round_up_least 16 (snd (size img))). lia.
  - intros x y Hx Hy. unfold padded, paste. simpl.
    replace (0 <=? x) with true by (symmetry; apply Z.leb_le; lia).
    replace (x <? fst (size img)) with true by (symmetry; apply Z.ltb_lt; lia).
    replace (0 <=? y) with true by (symmetry; apply Z.leb_le; lia).
    replace (y <? snd (size img)) with true by (symmetry; apply Z.ltb_lt; lia).
    simpl. rewrite !Z.sub_0_r. reflexivity.
Qed.

(** C10: a negative hold duration is a duration 0: the two calls are the
    same computation, which returns the renderer it created, leaves it on
    the camera and neither sleeps nor removes anything. *)
Theorem overlay_image_negative_duration path duration layer m w :
  (duration < 0)%Q ->
  overlay_image path duration layer m w = overlay_image path 0 layer m w /\
  forall r w',
    overlay_image path duration layer m w = (Ok r, w') ->
    r = Renderer (w_next w) /\
    In (w_next w) (map fst (w_overlays w')) /\
    exists src sz, w_log w' = EvAddOverlay (w_next w) src sz :: w_log w.
Proof.
  intros Hneg.
  assert (Qlt_bool 0 duration = false) as Hf.
  { destruct (Qlt_bool 0 duration) eqn:E; [|reflexivity].
    apply Qlt_bool_iff in E. exfalso.
    exact (Qlt_irrefl 0 (Qlt_trans _ _ _ E Hneg)). }
  split.
  - unfold overlay_image, Image_open, bind, lift.
    destruct (image_files path) as [img0|]; [|reflexivity].
    destruct (fit_to_screen img0) as [img|e]; [|reflexivity].
    rewrite Hf. reflexivity.
  - intros r w' Hrun.
    destruct (overlay_image_effect _ _ _ _ _ _ _ Hrun)
      as (img0 & img & _ & _ & Hr & Hlog & Hin & _).
    unfold hold_events in Hlog. rewrite Hf in *.
    split; [exact Hr|]. split; [apply Hin; reflexivity|].
    eexists _, _. exact Hlog.
Qed.

(** What the resize of lines 157-162 returns, when it returns. *)
Lemma fit_to_screen_result img img' :
  fit_to_screen img = Ok img' ->
  (SCREEN_W cfg < fst (size img) ->
     exists hsize,
       scaled_height (snd (size img)) (fst (size img)) (SCREEN_W cfg) = Ok hsize /\
       resize resample img (SCREEN_W cfg, hsize) = Ok img' /\
       size img' = (SCREEN_W cfg, hsize)) /\
  (fst (size img) <= SCREEN_W cfg -> img' = img).
Proof.
  unfold fit_to_screen, scaled_height.
  destruct (SCREEN_W cfg <? fst (size img)) eqn:Hw.
  - apply Z.ltb_lt in Hw.
    destruct (PyFloat.of_int (fst (size img))) as [fw|]; [|discriminate].
    destruct (PyFloat.of_int (SCREEN_W cfg)) as [fb|]; [|discriminate].
    destruct (PyFloat.truediv fb fw) as [wpercent|]; [|discriminate].
    destruct (PyFloat.of_int (snd (size img))) as [fh|]; [|discriminate].
    destruct (PyFloat.to_int (PyFloat.mul fh wpercent)) as [hsize|]; [|discriminate].
    intros H. split.
    + intros _. exists hsize. split; [reflexivity|]. split; [exact H|].
      unfold resize in H.
      destruct ((fst (SCREEN_W cfg, hsize) <? 1) || (snd (SCREEN_W cfg, hsize) <? 1));
        [discriminate|].
      injection H as <-. reflexivity.
    + intros Hle. lia.
  - apply Z.ltb_ge in Hw. intros H. inversion H; subst; clear H. split.
    + intros Hlt. lia.
    + intros _. reflexivity.
Qed.

(** C5, as the code has it: an image wider than the screen is resized to
    the width of the screen and to the height [int(float(h) * (SCREEN_W /
    float(w)))], computed in doubles; an image that is not wider is
    submitted as it is, only padded. *)
Theorem overlay_image_scaling path duration layer m w r w' :
  overlay_image path duration layer m w = (Ok r, w') ->
  exists img0 src sz,
    image_files path = Some img0 /\
    w_log w' = (hold_events (w_next w) duration
                ++ EvAddOverlay (w_next w) src sz :: w_log w)%list /\
    (SCREEN_W cfg < fst (size img0) ->
       fst sz = SCREEN_W cfg /\
       scaled_height (snd (size img0)) (fst (size img0)) (SCREEN_W cfg)
       = Ok (snd sz)) /\
    (fst (size img0) <= SCREEN_W cfg ->
       sz = size img0 /\ src = padded m img0).
Proof.
  intros Hrun.
  destruct (overlay_image_effect _ _ _ _ _ _ _ Hrun)
    as (img0 & img & Hopen & Hfit & _ & Hlog & _).
  exists img0, (padded m img), (size img).
  split; [exact Hopen|]. split; [exact Hlog|].
  destruct (fit_to_screen_result _ _ Hfit) as [Hwide Hnarrow].
  split.
  - intros Hlt. destruct (Hwide Hlt) as (hsize & Hh & _ & Hsz).
    rewrite Hsz. simpl. split; [reflexivity | exact Hh].
  - intros Hle. rewrite (Hnarrow Hle). split; reflexivity.
Qed.

(** The call returns whenever the image file can be opened and the resize
    does not raise; an image no wider than the screen is never resized. *)
Lemma fit_to_screen_narrow img :
  fst (size img) <= SCREEN_W cfg -> fit_to_screen img = Ok img.
Proof.
  intros Hle. unfold fit_to_screen.
  replace (SCREEN_W cfg <? fst (size img)) with false; [reflexivity|].
  symmetry. apply Z.ltb_ge. exact Hle.
Qed.

Lemma overlay_image_runs path duration layer m w img0 img :
  image_files path = Some img0 ->
  fit_to_screen img0 = Ok img ->
  exists r w', overlay_image path duration layer m w = (Ok r, w').
Proof.
  intros Hopen Hfit.
  rewrite (overlay_image_loaded _ duration layer m w _ _ Hopen Hfit).
  unfold bind, add_overlay, set_layer, act, sleep, remove_overlay, ret.
  destruct (Qlt_bool 0 duration) eqn:Hd;
    [rewrite (Qlt_bool_pos_not_neg _ Hd)|]; eexists _, _; reflexivity.
Qed.

End OverlayFacts.

(** ** Concrete runs *)

Lemma overlay_image_buffer_alignment_witness :
  wide_run 0 = (Ok (Renderer 0), snd (wide_run 0)) /\
  exists img0 img src,
    booth_files "/home/pi/wide.png" = Some img0 /\
    fit_to_screen (booth_cfg false) nearest img0 = Ok img /\
    w_log (snd (wide_run 0)) = [EvAddOverlay 0 src (size img)] /\
    least_multiple_ge 32 (fst (size img)) (fst (size src)) /\
    least_multiple_ge 16 (snd (size img)) (snd (size src)).
Proof.
  assert (wide_run 0 = (Ok (Renderer 0), snd (wide_run 0))) as H
    by (vm_compute; reflexivity).
  split; [exact H|].
  exact (overlay_image_buffer_alignment (booth_cfg false) booth_files nearest same_mode
           "/home/pi/wide.png" 0 3 "RGB" booth_world _ _ H).
Defined.

Lemma overlay_image_hold_modes_witness :
  wide_run 2 = (Ok (IntId (-1)), snd (wide_run 2)) /\
  ~ In 0%nat (map fst (w_overlays (snd (wide_run 2)))) /\
  exists src sz,
    w_log (snd (wide_run 2))
    = [EvRemoveOverlay 0; EvSleep 2; EvAddOverlay 0 src sz].
Proof.
  assert (wide_run 2 = (Ok (IntId (-1)), snd (wide_run 2))) as H
    by (vm_compute; reflexivity).
  split; [exact H|].
  exact (proj2 (proj1 (overlay_image_hold_modes (booth_cfg false) booth_files nearest same_mode
           "/home/pi/wide.png" 2 3 "RGB" booth_world _ _ H)
                  eq_refl)).
Defined.

Lemma padded_never_crops_witness :
  pixel_at (padded same_mode "RGB" (gradient 928 145 "RGB")) 5 7 = 7005.
Proof.
  apply (proj2 (proj2 (padded_never_crops same_mode "RGB" (gradient 928 145 "RGB")))
           5 7); simpl; lia.
Defined.

Lemma overlay_image_negative_duration_witness :
  ((-1 # 1) < 0)%Q /\
  wide_run (-1 # 1) = wide_run 0 /\
  fst (wide_run (-1 # 1)) = Ok (Renderer 0).
Proof.
  assert ((-1 # 1) < 0)%Q as Hneg by reflexivity.
  split; [exact Hneg|].
  pose proof (overlay_image_negative_duration (booth_cfg false) booth_files
                nearest same_mode "/home/pi/wide.png" (-1 # 1) 3 "RGB"
                booth_world Hneg) as [Heq Hret].
  split; [exact Heq|].
  assert (wide_run (-1 # 1) = (Ok (Renderer 0), snd (wide_run (-1 # 1)))) as H
    by (vm_compute; reflexivity).
  rewrite H. reflexivity.
Defined.

Lemma overlay_image_scaling_witness :
  wide_run 0 = (Ok (Renderer 0), snd (wide_run 0)) /\
  exists src,
    w_log (snd (wide_run 0)) = [EvAddOverlay 0 src (800, 124)].
Proof.
  assert (wide_run 0 = (Ok (Renderer 0), snd (wide_run 0))) as H
    by (vm_compute; reflexivity).
  split; [exact H|].
  destruct (overlay_image_scaling (booth_cfg false) booth_files nearest same_mode
              "/home/pi/wide.png" 0 3 "RGB" booth_world _ _ H)
    as (img0 & src & sz & Hopen & Hlog & Hwide & _).
  change (Some (gradient 928 145 "RGB") = Some img0) in Hopen.
  injection Hopen as <-.
  destruct (Hwide eq_refl) as [Hw Hh].
  destruct sz as [sw sh]. cbn [fst snd] in Hw, Hh.
  vm_compute in Hh. injection Hh as <-. subst sw.
  exists src. rewrite Hlog. reflexivity.
Defined.

(** C5 as stated fails: for the 928x145 picture on the 800 pixel wide
    screen the exact quotient 145 * 800 / 928 is 125, and the resized image
    is 124 pixels high, because 800 / 928.0 is rounded down to a double and
    its product with 145.0 falls just below 125. *)
Lemma downscale_height_not_exact :
  let img := gradient 928 145 "RGB" in
  SCREEN_W (booth_cfg false) < fst (size img) /\
  Z.quot (snd (size img) * SCREEN_W (booth_cfg false)) (fst (size img)) = 125 /\
  (exists img', fit_to_screen (booth_cfg false) nearest img = Ok img'
                /\ size img' = (800, 124)) /\
  ~ (forall img', fit_to_screen (booth_cfg false) nearest img = Ok img' ->
       size img' =
       (SCREEN_W (booth_cfg false),
        Z.quot (snd (size img) * SCREEN_W (booth_cfg false)) (fst (size img)))).
Proof.
  cbv zeta.
  assert (fit_to_screen (booth_cfg false) nearest (gradient 928 145 "RGB")
          = Ok {| size := (800, 124); mode := "RGB";
                  pixel_at := nearest (gradient 928 145 "RGB") (800, 124) |})
    as Hfit by (vm_compute; reflexivity).
  split; [reflexivity|]. split; [reflexivity|]. split.
  - eexists. split; [exact Hfit | reflexivity].
  - intros Hclaim. specialize (Hclaim _ Hfit). discriminate.
Qed.

(** * Properties of [get_base_filename_for_images] *)

Lemma append_assoc (a b c : string) : (a ++ b) ++ c = a ++ (b ++ c).
Proof. induction a as [|x a IH]; simpl; [reflexivity | now rewrite IH]. Qed.

Lemma append_empty_r (a : string) : a ++ EmptyString = a.
Proof. induction a as [|x a IH]; simpl; [reflexivity | now rewrite IH]. Qed.

Lemma occurs_app c a b : occurs c (a ++ b) = occurs c a || occurs c b.
Proof.
  induction a as [|x a IH]; simpl; [reflexivity|].
  rewrite IH. now rewrite orb_assoc.
Qed.

Lemma all_digits_app a b : all_digits (a ++ b) = all_digits a && all_digits b.
Proof.
  induction a as [|x a IH]; simpl; [reflexivity|].
  rewrite IH. now rewrite andb_assoc.
Qed.

Lemma all_digits_zeros n : all_digits (zeros n) = true.
Proof. induction n as [|n IH]; simpl; [reflexivity | exact IH]. Qed.

Lemma all_digits_string_of_uint d : all_digits (NilEmpty.string_of_uint d) = true.
Proof. induction d; simpl; auto. Qed.

Lemma all_digits_zfill width n : all_digits (zfill width n) = true.
Proof.
  unfold zfill, decimal.
  now rewrite all_digits_app, all_digits_zeros, all_digits_string_of_uint.
Qed.

(** A string of digits holds no character that is not a digit. *)
Lemma digits_exclude c s :
  is_digit c = false -> all_digits s = true -> occurs c s = false.
Proof.
  intros Hc. induction s as [|a s IH]; simpl; [reflexivity|].
  intros H. apply andb_true_iff in H. destruct H as [Ha Hs].
  rewrite (IH Hs), orb_false_r.
  destruct (Ascii.eqb a c) eqn:E; [|reflexivity].
  apply Ascii.eqb_eq in E. subst a. congruence.
Qed.

Lemma occurs_zfill c width n : is_digit c = false -> occurs c (zfill width n) = false.
Proof. intros Hc. apply digits_exclude; [exact Hc | apply all_digits_zfill]. Qed.

Lemma split_cons sep s : exists h t, split sep s = h :: t.
Proof.
  induction s as [|c s (h & t & IH)]; simpl.
  - now exists EmptyString, [].
  - destruct (Ascii.eqb c sep).
    + now exists EmptyString, (split sep s).
    + rewrite IH. now exists (String c h), t.
Qed.

(** [s.split(sep)[0]] is what comes before the first separator. *)
Lemma split_head_before sep a b :
  occurs sep a = false ->
  nth 0 (split sep (a ++ String sep b)) EmptyString = a.
Proof.
  induction a as [|c a IH]; simpl; intros H.
  - now rewrite Ascii.eqb_refl.
  - apply orb_false_iff in H. destruct H as [Hc Ha].
    rewrite Hc. specialize (IH Ha).
    destruct (split_cons sep (a ++ String sep b)) as (h & t & E).
    rewrite E in *. simpl in *. now rewrite IH.
Qed.

Lemma split_head_whole sep a :
  occurs sep a = false -> nth 0 (split sep a) EmptyString = a.
Proof.
  induction a as [|c a IH]; simpl; intros H; [reflexivity|].
  apply orb_false_iff in H. destruct H as [Hc Ha].
  rewrite Hc. specialize (IH Ha).
  destruct (split_cons sep a) as (h & t & E).
  rewrite E in *. simpl in *. now rewrite IH.
Qed.

Lemma replace_app old new a b :
  replace old new (a ++ b) = replace old new a ++ replace old new b.
Proof. induction a as [|c a IH]; simpl; [reflexivity | now rewrite IH]. Qed.

Lemma replace_absent old new s : occurs old s = false -> replace old new s = s.
Proof.
  induction s as [|c s IH]; simpl; intros H; [reflexivity|].
  apply orb_false_iff in H. destruct H as [Hc Hs].
  now rewrite Hc, (IH Hs).
Qed.

Lemma replace_zfill old new width n :
  is_digit old = false -> replace old new (zfill width n) = zfill width n.
Proof. intros H. apply replace_absent, occurs_zfill, H. Qed.

Lemma str_datetime_to_the_second t :
  str_datetime t =
  to_the_second t ++ (if N.eqb (microsecond t) 0 then EmptyString
                      else "." ++ zfill 6 (microsecond t)).
Proof.
  unfold str_datetime, to_the_second.
  repeat (rewrite !append_assoc; simpl). reflexivity.
Qed.

Lemma to_the_second_no_dot t : occurs "." (to_the_second t) = false.
Proof.
  unfold to_the_second.
  repeat (rewrite occurs_app, occurs_zfill by reflexivity; simpl).
  apply occurs_zfill. reflexivity.
Qed.

(** The three string operations of lines 138-140 on a clock reading. *)
Lemma base_filename_is_timestamp t :
  replace ":" "-" (replace " " "_" (nth 0 (split "." (str_datetime t)) EmptyString))
  = timestamp t.
Proof.
  rewrite str_datetime_to_the_second.
  assert (nth 0 (split "."
            (to_the_second t ++ (if N.eqb (microsecond t) 0 then EmptyString
                                 else "." ++ zfill 6 (microsecond t))))
            EmptyString = to_the_second t) as ->.
  { destruct (N.eqb (microsecond t) 0).
    - rewrite append_empty_r. apply split_head_whole, to_the_second_no_dot.
    - apply split_head_before, to_the_second_no_dot. }
  unfold to_the_second, timestamp.
  repeat (rewrite !replace_app, !replace_zfill by reflexivity; simpl).
  rewrite ?replace_zfill by reflexivity. reflexivity.
Qed.

Lemma append_length (a b : string) :
  String.length (a ++ b) = (String.length a + String.length b)%nat.
Proof. induction a as [|c a IH]; simpl; [reflexivity | now rewrite IH]. Qed.

(** A width checked on every number below a bound holds below it. *)
Lemma zfill_length_checked width (bound : N) :
  forallb (fun k => Nat.eqb (String.length (zfill width (N.of_nat k))) width)
          (seq 0 (N.to_nat bound)) = true ->
  forall n, (n < bound)%N -> String.length (zfill width n) = width.
Proof.
  intros Hall n Hn.
  rewrite forallb_forall in Hall.
  specialize (Hall (N.to_nat n)).
  rewrite N2Nat.id in Hall.
  apply Nat.eqb_eq, Hall, in_seq. lia.
Qed.

Lemma zfill_2_length n : (n <= 99)%N -> String.length (zfill 2 n) = 2%nat.
Proof.
  intros Hn. apply (zfill_length_checked 2 100); [vm_compute; reflexivity | lia].
Qed.

Lemma zfill_4_length n : (n <= 9999)%N -> String.length (zfill 4 n) = 4%nat.
Proof.
  intros Hn. apply (zfill_length_checked 4 10000); [vm_compute; reflexivity | lia].
Qed.

Lemma timestamp_length t : valid_datetime t -> String.length (timestamp t) = 19%nat.
Proof.
  intros (Hy & Hm & Hd & Hh & Hmi & Hs & _).
  unfold timestamp.
  rewrite !append_length.
  rewrite zfill_4_length by lia.
  rewrite !zfill_2_length by lia.
  reflexivity.
Qed.

Lemma get_base_filename_run cfg w :
  get_base_filename_for_images cfg w
  = (Ok (REAL_PATH cfg ++ "/" ++ SAVE_RAW_IMAGES_FOLDER cfg ++ "/"
         ++ timestamp (w_clock w)), w).
Proof.
  unfold get_base_filename_for_images, now, bind, ret.
  now rewrite base_filename_is_timestamp.
Qed.

(** C9: the base filename is the script's folder, the photo folder and
    the clock reading printed as YYYY-MM-DD_HH-MM-SS, 19 characters for any
    reading a [datetime] can hold; it leaves the world alone, and two
    readings within the same second give the same name. *)
Theorem base_filename_same_second cfg w1 w2 :
  same_second (w_clock w1) (w_clock w2) ->
  get_base_filename_for_images cfg w1
  = (Ok (REAL_PATH cfg ++ "/" ++ SAVE_RAW_IMAGES_FOLDER cfg ++ "/"
         ++ timestamp (w_clock w1)), w1) /\
  (valid_datetime (w_clock w1) ->
   String.length (timestamp (w_clock w1)) = 19%nat) /\
  fst (get_base_filename_for_images cfg w1)
  = fst (get_base_filename_for_images cfg w2).
Proof.
  intros (Hy & Hm & Hd & Hh & Hmi & Hs).
  split; [apply get_base_filename_run|]. split; [apply timestamp_length|].
  rewrite !get_base_filename_run. simpl. unfold timestamp.
  now rewrite Hy, Hm, Hd, Hh, Hmi, Hs.
Qed.

Lemma base_filename_same_second_witness :
  fst (get_base_filename_for_images (booth_cfg false) booth_world)
  = Ok "/home/pi/photo_booth/photos/2017-12-31_23-59-59" /\
  fst (get_base_filename_for_images (booth_cfg false) booth_world)
  = fst (get_base_filename_for_images (booth_cfg false)
           (set_clock (new_year_eve 0) booth_world)).
Proof.
  assert (same_second (w_clock booth_world)
            (w_clock (set_clock (new_year_eve 0) booth_world))) as Hsame
    by (repeat split).
  destruct (base_filename_same_second (booth_cfg false) booth_world
              (set_clock (new_year_eve 0) booth_world) Hsame)
    as (Hrun & _ & Heq).
  split; [|exact Heq].
  rewrite Hrun. reflexivity.
Defined.

(** * Properties of the main loop *)

Lemma bind_act {B} (f : World -> World) (k : unit -> M B) w :
  bind (act f) k w = k tt (f w).
Proof. reflexivity. Qed.

Lemma bind_ret {A B} (a : A) (k : A -> M B) w : bind (ret a) k w = k a w.
Proof. reflexivity. Qed.

Lemma bind_ok {A B} (c : M A) (k : A -> M B) w a w1 :
  c w = (Ok a, w1) -> bind c k w = k a w1.
Proof. intros H. unfold bind. now rewrite H. Qed.

Lemma bind_raise {A B} (c : M A) (k : A -> M B) w e w1 :
  c w = (Raise e, w1) -> bind c k w = (Raise e, w1).
Proof. intros H. unfold bind. now rewrite H. Qed.


Ltac fields :=
  cbn [w_files w_dirs w_detect w_clock w_log w_next w_overlays w_annotate
       w_slept w_makedirs_error w_capture_error
       emit slept set_files set_annotate set_detect set_overlays set_next
       set_clock set_dirs set_slept fst snd].




(** With a negative debounce delay the poll cannot get past a latched
    edge: [time.sleep] raises [ValueError] before any level is sampled,
    and nothing has happened yet.  Without an edge the delay is never
    used. *)
Theorem poll_buttons_negative_debounce cfg ci w :
  (DEBOUNCE_TIME cfg < 0)%Q ->
  (cam_event ci = true \/ exit_event ci = true ->
   poll_buttons cfg ci w = (Raise ValueError, w)) /\
  (cam_event ci = false -> exit_event ci = false ->
   poll_buttons cfg ci w = (Ok (None, None), w)).
Proof.
  intros Hd. apply Qlt_bool_iff in Hd.
  unfold poll_buttons, bind, sleep, GPIO_input, act, ret. rewrite Hd.
  split.
  - intros [H | H]; rewrite H; [reflexivity|].
    destruct (cam_event ci); reflexivity.
  - intros -> ->. reflexivity.
Qed.

Lemma poll_buttons_negative_debounce_witness :
  poll_buttons negative_debounce_cfg (reading false 1 true 0) booth_world
  = (Raise ValueError, booth_world).
Proof.
  apply (proj1 (poll_buttons_negative_debounce negative_debounce_cfg
                  (reading false 1 true 0) booth_world eq_refl)).
  right. reflexivity.
Defined.

Section LoopFacts.

Variable cfg : Config.
Variable image_files : string -> option Image.
Variable resample : Image -> Z * Z -> Z -> Z -> pixel.
Variable convert : string -> string -> pixel -> pixel.

Local Abbreviation loop_body := (loop_body cfg image_files resample convert).
Local Abbreviation main_loop := (main_loop cfg image_files resample convert).



End LoopFacts.


(** * Properties of [taking_photo] and of [main] *)

(** The overlay that was held is no longer on the camera. *)
Lemma held_overlay_gone src sz duration layer w :
  Qlt_bool duration 0 = false ->
  ~ In (w_next w) (map fst (w_overlays (held_overlay src sz duration layer w))).
Proof.
  intros Hd.
  unfold held_overlay, bind, add_overlay, set_layer, sleep, remove_overlay, act.
  rewrite Hd.
  simpl. rewrite ?Nat.eqb_refl. simpl. rewrite ?Nat.eqb_refl. simpl.
  intros Hin.
  apply in_map_iff in Hin. destruct Hin as (p & Hp & Hin).
  apply filter_In in Hin. destruct Hin as [_ Hne].
  rewrite Hp, Nat.eqb_refl in Hne. discriminate.
Qed.

Lemma existsb_eqb_In (s : string) (l : list string) :
  existsb (String.eqb s) l = true <-> In s l.
Proof.
  rewrite existsb_exists. split.
  - intros (x & Hx & E). apply String.eqb_eq in E. now subst x.
  - intros H. exists s. split; [exact H | apply String.eqb_refl].
Qed.

Lemma existsb_eqb_not_In (s : string) (l : list string) :
  existsb (String.eqb s) l = false <-> ~ In s l.
Proof.
  rewrite <- existsb_eqb_In. destruct (existsb (String.eqb s) l); split;
    congruence.
Qed.



Section PhotoFacts.

Variable cfg : Config.
Variable image_files : string -> option Image.
Variable resample : Image -> Z * Z -> Z -> Z -> pixel.
Variable convert : string -> string -> pixel -> pixel.

Local Abbreviation fit_to_screen := (fit_to_screen cfg resample).
Local Abbreviation overlay_image := (overlay_image cfg image_files resample convert).
Local Abbreviation taking_photo := (taking_photo cfg image_files resample convert).

Lemma overlay_image_timed path duration layer m w img0 img :
  image_files path = Some img0 ->
  fit_to_screen img0 = Ok img ->
  Qlt_bool 0 duration = true ->
  overlay_image path duration layer m w =
  (Ok (IntId (-1)),
   held_overlay (tobytes (padded convert m img)) (size img) duration layer w).
Proof.
  intros Hopen Hfit Hd.
  rewrite (overlay_image_loaded _ _ _ _ _ duration layer m w _ _ Hopen Hfit).
  rewrite Hd.
  unfold held_overlay, bind, add_overlay, set_layer, sleep, remove_overlay,
    act, ret.
  rewrite (Qlt_bool_pos_not_neg _ Hd). reflexivity.
Qed.

Lemma overlay_image_missing path duration layer m w :
  image_files path = None ->
  overlay_image path duration layer m w = (Raise (IOError path), w).
Proof.
  intros Hopen. unfold overlay_image, Image_open, bind, lift.
  now rewrite Hopen.
Qed.

Lemma overlay_image_unfit path duration layer m w img0 e :
  image_files path = Some img0 ->
  fit_to_screen img0 = Raise e ->
  overlay_image path duration layer m w = (Raise e, w).
Proof.
  intros Hopen Hfit. unfold overlay_image, Image_open, bind, lift.
  now rewrite Hopen, Hfit.
Qed.

(** A capture the camera rejects: the annotation is cleared, and that is
    all. *)
Lemma taking_photo_rejected filename_prefix w e :
  w_capture_error w (filename_prefix ++ ".jpg") = Some e ->
  taking_photo filename_prefix w = (Raise e, set_annotate "" w).
Proof.
  intros He. unfold taking_photo. rewrite bind_act.
  unfold capture, bind. cbn [w_capture_error set_annotate]. now rewrite He.
Qed.

(** The world after the still capture and the two prints of
    [taking_photo]. *)
Lemma taking_photo_steps filename_prefix w :
  w_capture_error w (filename_prefix ++ ".jpg") = None ->
  taking_photo filename_prefix w =
  bind (overlay_image (REAL_PATH cfg ++ "/assets/success_1.png") 2%Q 3 "RGB")
       (fun _ => ret tt)
       (emit (EvPrint "All done!")
          (emit (EvPrint ("Photo saved: " ++ filename_prefix ++ ".jpg"))
             (emit (EvCapture (filename_prefix ++ ".jpg") "")
                (set_files (cons (filename_prefix ++ ".jpg"))
                   (set_annotate "" w))))).
Proof.
  intros He. unfold taking_photo. rewrite bind_act.
  unfold capture, bind at 1. cbn [w_capture_error set_annotate]. rewrite He.
  reflexivity.
Qed.

(** C8, as the code has it.  [taking_photo] first clears the annotation
    and then asks for the capture to [filename_prefix + '.jpg'], so that
    the photo carries no text.  A capture the camera rejects raises, and
    nothing is written or shown.  A capture it accepts writes that file
    and no other, and the two messages are printed; then the success
    overlay is shown, held for 2 seconds and removed, and the call
    returns [None], if the success image can be opened and fitted; if
    not, the exception of [Image.open] or of the resize comes out after
    the capture, and nothing is shown. *)
Theorem taking_photo_effect filename_prefix w :
  let filename := filename_prefix ++ ".jpg" in
  let success := REAL_PATH cfg ++ "/assets/success_1.png" in
  (forall e,
     w_capture_error w filename = Some e ->
     taking_photo filename_prefix w = (Raise e, set_annotate "" w)) /\
  (w_capture_error w filename = None ->
   exists r w' shown,
     taking_photo filename_prefix w = (r, w') /\
     w_annotate w' = "" /\
     w_files w' = filename :: w_files w /\
     w_log w' =
     (shown ++ [EvPrint "All done!";
                EvPrint ("Photo saved: " ++ filename);
                EvCapture filename ""] ++ w_log w)%list /\
     filter is_capture shown = [] /\
     (forall img0 img,
        image_files success = Some img0 ->
        fit_to_screen img0 = Ok img ->
        r = Ok tt /\
        shown = [EvRemoveOverlay (w_next w); EvSleep 2;
                 EvAddOverlay (w_next w) (padded convert "RGB" img) (size img)] /\
        ~ In (w_next w) (map fst (w_overlays w'))) /\
     (image_files success = None ->
      r = Raise (IOError success) /\ shown = []) /\
     (forall img0 e,
        image_files success = Some img0 ->
        fit_to_screen img0 = Raise e ->
        r = Raise e /\ shown = [])).
Proof.
  intros filename success. split.
  - intros e He. exact (taking_photo_rejected _ _ _ He).
  - intros He. rewrite (taking_photo_steps _ _ He).
    destruct (image_files success) as [img0|] eqn:Hopen.
    + destruct (fit_to_screen img0) as [img|e] eqn:Hfit.
      * rewrite (bind_ok _ _ _ _ _
                   (overlay_image_timed _ 2%Q 3 "RGB" _ _ _ Hopen Hfit eq_refl)).
        eexists _, _.
        exists [EvRemoveOverlay (w_next w); EvSleep 2;
                EvAddOverlay (w_next w) (padded convert "RGB" img) (size img)].
        split; [reflexivity|].
        split; [reflexivity|]. split; [reflexivity|].
        split; [reflexivity|]. split; [reflexivity|].
        split; [|split].
        -- intros img0' img' H0 H1.
           injection H0 as <-. rewrite Hfit in H1. injection H1 as <-.
           split; [reflexivity|]. split; [reflexivity|].
           match goal with
           | |- ~ In _ (map fst (w_overlays (held_overlay ?src ?sz ?d ?l ?w0))) =>
               exact (held_overlay_gone src sz d l w0 eq_refl)
           end.
        -- discriminate.
        -- intros img0' e H0 H1. injection H0 as <-. congruence.
      * rewrite (bind_raise _ _ _ _ _
                   (overlay_image_unfit _ 2%Q 3 "RGB" _ _ _ Hopen Hfit)).
        exists (Raise e). eexists. exists [].
        repeat (split; [reflexivity|]).
        split; [|split].
        -- intros img0' img' H0 H1. injection H0 as <-. congruence.
        -- discriminate.
        -- intros img0' e' H0 H1. injection H0 as <-.
           rewrite Hfit in H1. injection H1 as <-. split; reflexivity.
    + rewrite (bind_raise _ _ _ _ _
                 (overlay_image_missing _ 2%Q 3 "RGB" _ Hopen)).
      eexists _, _. exists [].
      repeat (split; [reflexivity|]).
      split; [|split].
      * intros img0' img' H0. discriminate.
      * intros _. split; reflexivity.
      * intros img0' e H0. discriminate.
Qed.



(** What [health_test_required_folders] does, case by case. *)
Lemma health_test_present w :
  fst (path_exists (SAVE_RAW_IMAGES_FOLDER cfg) w) = Ok true ->
  health_test_required_folders cfg w = (Ok tt, w).
Proof.
  unfold health_test_required_folders, check_folders, bind, path_exists,
    print, makedirs, act, ret. cbn [existsb fst].
  intros H. injection H as H. now rewrite H.
Qed.

Lemma health_test_created w :
  SAVE_RAW_IMAGES_FOLDER cfg <> "" ->
  ~ In (SAVE_RAW_IMAGES_FOLDER cfg) (w_dirs w) ->
  w_makedirs_error w (SAVE_RAW_IMAGES_FOLDER cfg) = None ->
  health_test_required_folders cfg w =
  (Ok tt,
   emit (EvMakedirs (SAVE_RAW_IMAGES_FOLDER cfg))
     (set_dirs (cons (SAVE_RAW_IMAGES_FOLDER cfg))
        (emit (EvPrint ("Creating folder: " ++ SAVE_RAW_IMAGES_FOLDER cfg))
           w))).
Proof.
  intros Hname Hnew Hfs.
  apply String.eqb_neq in Hname. apply existsb_eqb_not_In in Hnew.
  unfold health_test_required_folders, check_folders, bind, path_exists,
    print, makedirs, act, ret. cbn [existsb fst].
  rewrite Hnew, andb_false_r. cbn [negb emit w_dirs w_makedirs_error].
  now rewrite Hname, Hnew, Hfs.
Qed.

Lemma health_test_refused w e :
  makedirs_refused cfg w e ->
  health_test_required_folders cfg w =
  (Raise e,
   emit (EvPrint ("Creating folder: " ++ SAVE_RAW_IMAGES_FOLDER cfg)) w).
Proof.
  unfold health_test_required_folders, check_folders, bind, path_exists,
    print, makedirs, act, ret. cbn [existsb fst].
  intros [[Hname ->] | (Hname & Hnew & Hfs)].
  - rewrite Hname. reflexivity.
  - apply String.eqb_neq in Hname. apply existsb_eqb_not_In in Hnew.
    rewrite Hnew, andb_false_r. cbn [negb emit w_dirs w_makedirs_error].
    now rewrite Hname, Hnew, Hfs.
Qed.

End PhotoFacts.

(** ** Concrete runs of [taking_photo] *)

Lemma taking_photo_effect_witness :
  exists w',
    taking_photo (booth_cfg false) booth_files nearest same_mode
      "/home/pi/photo_booth/photos/shot" booth_world = (Ok tt, w') /\
    w_annotate w' = "" /\
    w_files w' = ["/home/pi/photo_booth/photos/shot.jpg"] /\
    firstn 3 (w_log w') =
    [EvRemoveOverlay 0; EvSleep 2;
     EvAddOverlay 0 (padded same_mode "RGB" (gradient 640 400 "RGB")) (640, 400)] /\
    In (EvCapture "/home/pi/photo_booth/photos/shot.jpg" "") (w_log w').
Proof.
  destruct (proj2 (taking_photo_effect (booth_cfg false) booth_files nearest
                     same_mode "/home/pi/photo_booth/photos/shot" booth_world)
              eq_refl)
    as (r & w' & shown & Hrun & Hann & Hfiles & Hlog & _ & Hok & _).
  destruct (Hok (gradient 640 400 "RGB") (gradient 640 400 "RGB")
              eq_refl eq_refl) as (-> & -> & _).
  exists w'. split; [exact Hrun|]. split; [exact Hann|].
  split; [exact Hfiles|]. rewrite Hlog. split; [reflexivity|].
  cbn [app]. do 5 right. left. reflexivity.
Defined.

(** C8 as stated fails: without the bundled success image the photo is
    taken, but no overlay is shown and the call does not complete: the
    [IOError] of [Image.open] comes out of it. *)
Lemma taking_photo_without_success_image :
  fst (taking_photo (booth_cfg false) no_files nearest same_mode
         "/home/pi/photo_booth/photos/shot" booth_world)
  = Raise (IOError "/home/pi/photo_booth/assets/success_1.png") /\
  w_files (snd (taking_photo (booth_cfg false) no_files nearest same_mode
                  "/home/pi/photo_booth/photos/shot" booth_world))
  = ["/home/pi/photo_booth/photos/shot.jpg"] /\
  filter is_add_overlay
    (w_log (snd (taking_photo (booth_cfg false) no_files nearest same_mode
                   "/home/pi/photo_booth/photos/shot" booth_world)))
  = [].
Proof. vm_compute. repeat split; reflexivity. Qed.

(** ** Overlays come and go *)

Lemma filter_map_fresh (id : nat) (layer : Z) (l : list (nat * Overlay)) :
  Forall (fun p : nat * Overlay => (fst p < id)%nat) l ->
  filter (fun p : nat * Overlay => negb (Nat.eqb (fst p) id))
    (map (fun p : nat * Overlay =>
            if Nat.eqb (fst p) id
            then (fst p, {| o_source := o_source (snd p);
                            o_size := o_size (snd p);
                            o_layer := layer |})
            else p) l) = l.
Proof.
  induction 1 as [|p l Hp _ IH]; simpl; [reflexivity|].
  assert (Nat.eqb (fst p) id = false) as E by (apply Nat.eqb_neq; lia).
  rewrite E. simpl. rewrite E. simpl. now rewrite IH.
Qed.

(** Showing an overlay for a while and removing it leaves the camera with
    the renderers it had, and only uses up one renderer id. *)
Lemma held_overlay_frame src sz duration layer w :
  Qlt_bool duration 0 = false ->
  fresh_ids w ->
  w_overlays (held_overlay src sz duration layer w) = w_overlays w /\
  w_next (held_overlay src sz duration layer w) = S (w_next w) /\
  fresh_ids (held_overlay src sz duration layer w).
Proof.
  intros Hd Hfresh.
  assert (w_overlays (held_overlay src sz duration layer w) = w_overlays w) as Hov.
  { unfold held_overlay, bind, add_overlay, set_layer, sleep, remove_overlay, act.
    rewrite Hd.
    simpl. rewrite ?Nat.eqb_refl. simpl. rewrite ?Nat.eqb_refl. simpl.
    apply filter_map_fresh. exact Hfresh. }
  assert (w_next (held_overlay src sz duration layer w) = S (w_next w)) as Hnx.
  { unfold held_overlay, bind, add_overlay, set_layer, sleep, remove_overlay, act.
    rewrite Hd. reflexivity. }
  split; [exact Hov|]. split; [exact Hnx|].
  unfold fresh_ids. rewrite Hov, Hnx.
  eapply Forall_impl; [|exact Hfresh]. simpl. intros p Hp. lia.
Qed.


(** ** The loop, iteration by iteration *)




Section LoopTrace.

Variable cfg : Config.
Variable image_files : string -> option Image.
Variable resample : Image -> Z * Z -> Z -> Z -> pixel.
Variable convert : string -> string -> pixel -> pixel.

Local Abbreviation loop_body := (loop_body cfg image_files resample convert).
Local Abbreviation main_loop := (main_loop cfg image_files resample convert).
Local Abbreviation main := (main cfg image_files resample convert).

Hypothesis debounce_ok : (0 <= DEBOUNCE_TIME cfg)%Q.



Hypothesis pins_distinct : CAMERA_BUTTON_PIN cfg <> EXIT_BUTTON_PIN cfg.


Section SuccessShown.

Variable done0 done1 : Image.
Hypothesis success_opens :
  image_files (REAL_PATH cfg ++ "/assets/success_1.png") = Some done0.
Hypothesis success_fits : fit_to_screen cfg resample done0 = Ok done1.


End SuccessShown.

Section PhotosTaken.

Variable done0 done1 : Image.
Hypothesis success_opens :
  image_files (REAL_PATH cfg ++ "/assets/success_1.png") = Some done0.
Hypothesis success_fits : fit_to_screen cfg resample done0 = Ok done1.


End PhotosTaken.






End LoopTrace.

(** ** The whole of [main] *)

Lemma health_test_frame cfg w :
  folder_ready cfg w ->
  exists w1,
    health_test_required_folders cfg w = (Ok tt, w1) /\
    w_files w1 = w_files w /\ w_overlays w1 = w_overlays w /\
    w_next w1 = w_next w /\ w_detect w1 = w_detect w /\
    w_slept w1 = w_slept w /\ w_capture_error w1 = w_capture_error w /\
    count_captures (w_log w1) = count_captures (w_log w) /\
    In (SAVE_RAW_IMAGES_FOLDER cfg) (w_dirs w1).
Proof.
  intros [Hname Hready].
  destruct (existsb (String.eqb (SAVE_RAW_IMAGES_FOLDER cfg)) (w_dirs w)) eqn:E.
  - exists w. split.
    + apply health_test_present. unfold path_exists. cbn [fst].
      apply String.eqb_neq in Hname. now rewrite Hname, E.
    + repeat split. apply existsb_eqb_In. exact E.
  - apply existsb_eqb_not_In in E.
    destruct Hready as [Hin | Hfs]; [contradiction|].
    eexists. split; [apply health_test_created; assumption|].
    repeat split. left. reflexivity.
Qed.

Section WholeRun.

Variable cfg : Config.
Variable image_files : string -> option Image.
Variable resample : Image -> Z * Z -> Z -> Z -> pixel.
Variable convert : string -> string -> pixel -> pixel.

Local Abbreviation main_loop := (main_loop cfg image_files resample convert).
Local Abbreviation main := (main cfg image_files resample convert).

(** [main] up to the intro overlay. *)
Lemma main_preview inputs w :
  folder_ready cfg w ->
  exists w1,
    main inputs w =
    bind (overlay_image cfg image_files resample convert
            (REAL_PATH cfg ++ "/assets/intro_1.png") 3%Q 3 "RGB")
         (fun _ =>
            add_event_detect (CAMERA_BUTTON_PIN cfg) ;;
            add_event_detect (EXIT_BUTTON_PIN cfg) ;;
            main_loop inputs)
         w1 /\
    hd_error (w_log w1) = Some (EvStartPreview (SCREEN_W cfg, SCREEN_H cfg)) /\
    w_files w1 = w_files w /\ w_overlays w1 = w_overlays w /\
    w_next w1 = w_next w /\ w_detect w1 = w_detect w /\
    w_slept w1 = w_slept w /\ w_capture_error w1 = w_capture_error w /\
    count_captures (w_log w1) = count_captures (w_log w) /\
    In (SAVE_RAW_IMAGES_FOLDER cfg) (w_dirs w1).
Proof.
  intros Hready.
  unfold main, print, start_preview.
  rewrite !bind_act.
  match goal with
  | |- context [bind (health_test_required_folders cfg) _ ?wa] =>
      destruct (health_test_frame cfg wa)
        as (w1 & Hrun & Hf & Ho & Hn & Hdt & Hsl & Hce & Hc & Hdir);
      [exact Hready|]
  end.
  rewrite (bind_ok _ _ _ _ _ Hrun). rewrite bind_act.
  eexists. split; [reflexivity|].
  unfold count_captures in *. fields.
  cbn [w_files w_overlays w_next w_detect w_slept w_capture_error w_log emit
       filter is_capture hd_error] in Hf, Ho, Hn, Hdt, Hsl, Hce, Hc |- *.
  repeat (split; [assumption || reflexivity|]). exact Hdir.
Qed.



End WholeRun.

(** ** Concrete runs of the booth *)



(** * Further properties *)

(** ** The padded canvas *)

(** The margin the padding adds is black, and narrower than one block:
    every pixel of the canvas that lies outside the pasted image is 0. *)
Theorem padded_margin convert m img x y :
  0 <= x < fst (size (padded convert m img)) ->
  0 <= y < snd (size (padded convert m img)) ->
  fst (size img) <= x \/ snd (size img) <= y ->
  pixel_at (padded convert m img) x y = 0 /\
  fst (size (padded convert m img)) - fst (size img) < 32 /\
  snd (size (padded convert m img)) - snd (size img) < 16.
Proof.
  intros _ _ Hout. split.
  - unfold padded, paste, Image_new. simpl.
    destruct Hout as [Hx | Hy].
    + replace (x <? fst (size img)) with false
        by (symmetry; apply Z.ltb_ge; lia).
      now rewrite andb_false_r.
    + replace (y <? snd (size img)) with false
        by (symmetry; apply Z.ltb_ge; lia).
      now rewrite andb_false_r.
  - unfold padded, paste, Image_new. simpl.
    pose proof (Z.div_mod (fst (size img) + 31) 32 ltac:(lia)).
    pose proof (Z.mod_pos_bound (fst (size img) + 31) 32 ltac:(lia)).
    pose proof (Z.div_mod (snd (size img) + 15) 16 ltac:(lia)).
    pose proof (Z.mod_pos_bound (snd (size img) + 15) 16 ltac:(lia)).
    lia.
Qed.

(** The 928x145 picture gets a 928x160 canvas; (5, 150) is on its bottom
    margin. *)
Lemma padded_margin_witness :
  size (padded same_mode "RGB" (gradient 928 145 "RGB")) = (928, 160) /\
  pixel_at (padded same_mode "RGB" (gradient 928 145 "RGB")) 5 150 = 0.
Proof.
  split; [reflexivity|].
  apply (padded_margin same_mode "RGB" (gradient 928 145 "RGB") 5 150).
  - simpl. lia.
  - simpl. lia.
  - right. simpl. lia.
Defined.

(** An image whose sides are already multiples of 32 and 16 gets a canvas
    of its own size. *)
Theorem padded_aligned convert m img :
  (32 | fst (size img)) -> (16 | snd (size img)) ->
  size (padded convert m img) = size img.
Proof.
  intros [a Ha] [b Hb]. unfold padded, paste, Image_new. simpl.
  destruct (size img) as [wd ht]. simpl in *. subst wd ht.
  f_equal.
  - replace (a * 32 + 31) with (31 + a * 32) by lia.
    rewrite Z.div_add by lia. reflexivity.
  - replace (b * 16 + 15) with (15 + b * 16) by lia.
    rewrite Z.div_add by lia. reflexivity.
Qed.

Lemma padded_aligned_witness :
  size (padded same_mode "RGB" (gradient 800 480 "RGB")) = (800, 480).
Proof.
  apply (padded_aligned same_mode "RGB" (gradient 800 480 "RGB")).
  - exists 25. reflexivity.
  - exists 30. reflexivity.
Defined.

(** ** Overlays come and go, from the caller's side *)

Section OverlayLifetime.

Variable cfg : Config.
Variable image_files : string -> option Image.
Variable resample : Image -> Z * Z -> Z -> Z -> pixel.
Variable convert : string -> string -> pixel -> pixel.

Local Abbreviation overlay_image := (overlay_image cfg image_files resample convert).

(** A timed overlay leaks nothing: after a call with a duration above 0
    the camera has exactly the renderers it had before, and the renderer
    ids stay fresh. *)
Theorem overlay_image_timed_no_leak path duration layer m w r w' :
  fresh_ids w ->
  (0 < duration)%Q ->
  overlay_image path duration layer m w = (Ok r, w') ->
  w_overlays w' = w_overlays w /\ fresh_ids w' /\ w_next w' = S (w_next w).
Proof.
  intros Hfresh Hd Hrun.
  destruct (overlay_image_returns _ _ _ _ _ _ _ _ _ _ _ Hrun)
    as (img0 & img & Hopen & Hfit).
  apply Qlt_bool_iff in Hd.
  rewrite (overlay_image_timed _ _ _ _ _ _ _ _ _ _ _ Hopen Hfit Hd) in Hrun.
  injection Hrun as _ <-.
  destruct (held_overlay_frame (tobytes (padded convert m img)) (size img)
              duration layer w (Qlt_bool_pos_not_neg _ Hd) Hfresh)
    as (H1 & H2 & H3).
  repeat split; assumption.
Qed.

(** The caller's side of a call without duration: removing the returned
    renderer puts the camera back as it was. *)
Theorem overlay_image_then_remove path duration layer m w id w' :
  fresh_ids w ->
  overlay_image path duration layer m w = (Ok (Renderer id), w') ->
  id = w_next w /\
  (exists ov, w_overlays w' = (id, ov) :: w_overlays w /\ o_layer ov = layer) /\
  w_overlays (snd (remove_overlay id w')) = w_overlays w.
Proof.
  intros Hfresh Hrun.
  destruct (overlay_image_returns _ _ _ _ _ _ _ _ _ _ _ Hrun)
    as (img0 & img & Hopen & Hfit).
  rewrite (overlay_image_loaded _ _ _ _ _ _ _ _ _ _ _ Hopen Hfit) in Hrun.
  unfold bind, add_overlay, set_layer, act, sleep, remove_overlay, ret in Hrun.
  destruct (Qlt_bool 0 duration);
    [destruct (Qlt_bool duration 0); discriminate|].
  injection Hrun as <- <-.
  assert (forall l : list (nat * Overlay),
             Forall (fun p : nat * Overlay => (fst p < w_next w)%nat) l ->
             map (fun p : nat * Overlay =>
                    if Nat.eqb (fst p) (w_next w)
                    then (fst p, {| o_source := o_source (snd p);
                                    o_size := o_size (snd p);
                                    o_layer := layer |})
                    else p) l = l
             /\ filter (fun p : nat * Overlay => negb (Nat.eqb (fst p) (w_next w))) l = l)
    as Hold.
  { induction 1 as [|p l Hp _ [IH1 IH2]]; simpl; [split; reflexivity|].
    assert (Nat.eqb (fst p) (w_next w) = false) as E by (apply Nat.eqb_neq; lia).
    rewrite E. simpl. now rewrite IH1, IH2. }
  destruct (Hold _ Hfresh) as [Hmap Hfilter].
  split; [reflexivity|]. split.
  - eexists. simpl. rewrite Nat.eqb_refl, Hmap. simpl. split; reflexivity.
  - simpl. rewrite Nat.eqb_refl. simpl. rewrite Nat.eqb_refl. simpl.
    rewrite Hmap. exact Hfilter.
Qed.

End OverlayLifetime.

Lemma overlay_image_timed_no_leak_witness :
  w_overlays (snd (wide_run 2)) = [] /\ w_next (snd (wide_run 2)) = 1%nat.
Proof.
  assert (wide_run 2 = (Ok (IntId (-1)), snd (wide_run 2))) as H
    by (vm_compute; reflexivity).
  destruct (overlay_image_timed_no_leak (booth_cfg false) booth_files nearest
              same_mode "/home/pi/wide.png" 2 3 "RGB" booth_world _ _
              (Forall_nil _) eq_refl H) as (Hov & _ & Hnext).
  split; [exact Hov | exact Hnext].
Defined.

Lemma overlay_image_then_remove_witness :
  w_overlays (snd (remove_overlay 0 (snd (wide_run 0)))) = [].
Proof.
  assert (wide_run 0 = (Ok (Renderer 0), snd (wide_run 0))) as H
    by (vm_compute; reflexivity).
  exact (proj2 (proj2 (overlay_image_then_remove (booth_cfg false) booth_files
                         nearest same_mode "/home/pi/wide.png" 0 3 "RGB"
                         booth_world 0%nat _ (Forall_nil _) H))).
Defined.

(** ** The photo folder *)

(** When the photo folder is there, or has a name and can be created,
    [health_test_required_folders] returns with the folder in place: it
    creates it (once, after saying so) when it is missing and touches
    nothing when it is there, so that a second run changes nothing; the
    camera, the photos and the pins are not involved. *)
Theorem health_test_creates_folder cfg w :
  folder_ready cfg w ->
  exists w',
    health_test_required_folders cfg w = (Ok tt, w') /\
    fst (path_exists (SAVE_RAW_IMAGES_FOLDER cfg) w') = Ok true /\
    (In (SAVE_RAW_IMAGES_FOLDER cfg) (w_dirs w) -> w' = w) /\
    (~ In (SAVE_RAW_IMAGES_FOLDER cfg) (w_dirs w) ->
     w_dirs w' = SAVE_RAW_IMAGES_FOLDER cfg :: w_dirs w /\
     w_log w' = EvMakedirs (SAVE_RAW_IMAGES_FOLDER cfg)
                :: EvPrint ("Creating folder: " ++ SAVE_RAW_IMAGES_FOLDER cfg)
                :: w_log w) /\
    health_test_required_folders cfg w' = (Ok tt, w') /\
    w_files w' = w_files w /\ w_overlays w' = w_overlays w /\
    w_detect w' = w_detect w.
Proof.
  intros [Hname Hready].
  assert (forall w0, In (SAVE_RAW_IMAGES_FOLDER cfg) (w_dirs w0) ->
            fst (path_exists (SAVE_RAW_IMAGES_FOLDER cfg) w0) = Ok true)
    as Hthere.
  { intros w0 Hin. unfold path_exists. cbn [fst].
    apply existsb_eqb_In in Hin. apply String.eqb_neq in Hname.
    now rewrite Hname, Hin. }
  destruct (existsb (String.eqb (SAVE_RAW_IMAGES_FOLDER cfg)) (w_dirs w)) eqn:E.
  - apply existsb_eqb_In in E. exists w.
    split; [exact (health_test_present cfg w (Hthere w E))|].
    split; [exact (Hthere w E)|].
    split; [reflexivity|].
    split; [intros Hnew; contradiction|].
    split; [exact (health_test_present cfg w (Hthere w E))|].
    repeat split.
  - apply existsb_eqb_not_In in E.
    destruct Hready as [Hin | Hfs]; [contradiction|].
    eexists. split; [exact (health_test_created cfg w Hname E Hfs)|].
    split; [apply Hthere; left; reflexivity|].
    split; [intros Hin; contradiction|].
    split; [intros _; split; reflexivity|].
    split; [apply health_test_present, Hthere; left; reflexivity|].
    repeat split.
Qed.

Lemma health_test_creates_folder_witness :
  w_dirs (snd (health_test_required_folders (booth_cfg false) booth_world))
  = ["photos"].
Proof.
  destruct (health_test_creates_folder (booth_cfg false) booth_world)
    as (w' & Hrun & _ & _ & Hnew & _).
  - split; [discriminate | right; reflexivity].
  - rewrite Hrun. apply Hnew. intros H. exact H.
Defined.

(** When the photo folder is missing and cannot be created (it has no
    name, or the file system refuses), [health_test_required_folders]
    announces the folder and then lets the exception of [os.makedirs]
    out; nothing else has happened, and the folder is still missing. *)
Theorem health_test_cannot_create cfg w e :
  makedirs_refused cfg w e ->
  health_test_required_folders cfg w
  = (Raise e,
     emit (EvPrint ("Creating folder: " ++ SAVE_RAW_IMAGES_FOLDER cfg)) w) /\
  fst (path_exists (SAVE_RAW_IMAGES_FOLDER cfg)
         (snd (health_test_required_folders cfg w))) = Ok false.
Proof.
  intros Href. rewrite (health_test_refused cfg w e Href).
  split; [reflexivity|].
  unfold path_exists. cbn [fst snd w_dirs emit].
  destruct Href as [[Hname _] | (_ & Hnew & _)].
  - rewrite Hname. reflexivity.
  - apply existsb_eqb_not_In in Hnew. now rewrite Hnew, andb_false_r.
Qed.

(** [SAVE_RAW_IMAGES_FOLDER: ''] *)
Lemma health_test_cannot_create_witness :
  health_test_required_folders no_folder_cfg booth_world
  = (Raise (FileNotFoundError ""),
     emit (EvPrint "Creating folder: ") booth_world).
Proof.
  apply (health_test_cannot_create no_folder_cfg booth_world
           (FileNotFoundError "")).
  left. split; reflexivity.
Defined.

(** ** Photo names do not collide across seconds *)

Lemma parse_zeros k s d :
  NilEmpty.uint_of_string s = Some d ->
  option_map N.of_uint (NilEmpty.uint_of_string (zeros k ++ s))
  = Some (N.of_uint d).
Proof.
  intros Hs. induction k as [|k IH]; simpl.
  - now rewrite Hs.
  - destruct (NilEmpty.uint_of_string (zeros k ++ s)) as [d'|]; [|discriminate].
    simpl in *. exact IH.
Qed.

(** A zero-padded number reads back as itself. *)
Lemma parse_zfill width n : parse_decimal (zfill width n) = Some n.
Proof.
  unfold parse_decimal, zfill, decimal.
  rewrite (parse_zeros _ _ _ (NilEmpty.usu (N.to_uint n))).
  now rewrite DecimalN.Unsigned.of_to.
Qed.

Lemma zfill_inj width n n' : zfill width n = zfill width n' -> n = n'.
Proof.
  intros H. apply (f_equal parse_decimal) in H.
  rewrite !parse_zfill in H. congruence.
Qed.

Lemma append_inj_length (a a' b b' : string) :
  String.length a = String.length a' ->
  a ++ b = a' ++ b' -> a = a' /\ b = b'.
Proof.
  revert a'. induction a as [|c a IH]; intros [|c' a'] Hlen H;
    simpl in *; try discriminate.
  - split; [reflexivity | exact H].
  - injection H as -> H. injection Hlen as Hlen.
    destruct (IH a' Hlen H) as [-> ->]. split; reflexivity.
Qed.

Lemma append_cancel_l (p a b : string) : p ++ a = p ++ b -> a = b.
Proof. intros H. now destruct (append_inj_length p p a b eq_refl H). Qed.

(** Two readings of the clock get the same timestamp only within the same
    second. *)
Lemma timestamp_inj t1 t2 :
  valid_datetime t1 -> valid_datetime t2 ->
  timestamp t1 = timestamp t2 -> same_second t1 t2.
Proof.
  intros (Hy1 & Hm1 & Hd1 & Hh1 & Hmi1 & Hs1 & _)
         (Hy2 & Hm2 & Hd2 & Hh2 & Hmi2 & Hs2 & _) H.
  unfold timestamp in H.
  apply append_inj_length in H;
    [|now rewrite !zfill_4_length by lia].
  destruct H as [Hy H]. simpl in H. injection H as H.
  apply append_inj_length in H;
    [|now rewrite !zfill_2_length by lia].
  destruct H as [Hm H]. simpl in H. injection H as H.
  apply append_inj_length in H;
    [|now rewrite !zfill_2_length by lia].
  destruct H as [Hd H]. simpl in H. injection H as H.
  apply append_inj_length in H;
    [|now rewrite !zfill_2_length by lia].
  destruct H as [Hh H]. simpl in H. injection H as H.
  apply append_inj_length in H;
    [|now rewrite !zfill_2_length by lia].
  destruct H as [Hmi H]. simpl in H. injection H as H.
  repeat split; eapply zfill_inj; eassumption.
Qed.

(** Photos taken in different seconds never share a file name: for clock
    readings a [datetime] can hold, [get_base_filename_for_images] returns
    the same prefix exactly when the readings are within the same
    second. *)
Theorem base_filename_distinct_seconds cfg w1 w2 :
  valid_datetime (w_clock w1) -> valid_datetime (w_clock w2) ->
  (fst (get_base_filename_for_images cfg w1)
   = fst (get_base_filename_for_images cfg w2)
   <-> same_second (w_clock w1) (w_clock w2)).
Proof.
  intros Hv1 Hv2. rewrite !get_base_filename_run. simpl. split.
  - intros H. injection H as H.
    apply append_cancel_l in H. simpl in H. injection H as H.
    apply append_cancel_l in H. simpl in H. injection H as H.
    now apply timestamp_inj.
  - intros (Hy & Hm & Hd & Hh & Hmi & Hs). unfold timestamp.
    now rewrite Hy, Hm, Hd, Hh, Hmi, Hs.
Qed.

Lemma base_filename_distinct_seconds_witness :
  fst (get_base_filename_for_images (booth_cfg false) booth_world)
  <> fst (get_base_filename_for_images (booth_cfg false)
            (set_clock {| year := 2018; month := 1; day := 1; hour := 0;
                          minute := 0; second := 0; microsecond := 250000 |}
               booth_world)).
Proof.
  intros H.
  apply (base_filename_distinct_seconds (booth_cfg false) booth_world) in H.
  - destruct H as [Hy _]. discriminate Hy.
  - unfold valid_datetime. simpl. lia.
  - unfold valid_datetime. simpl. lia.
Defined.

(** ** Runs of the whole booth *)

Section RunsOfMain.

Variable cfg : Config.
Variable image_files : string -> option Image.
Variable resample : Image -> Z * Z -> Z -> Z -> pixel.
Variable convert : string -> string -> pixel -> pixel.

Local Abbreviation main_loop := (main_loop cfg image_files resample convert).
Local Abbreviation main := (main cfg image_files resample convert).


(** Without the intro image [main] raises before it polls: the preview is
    already running, no photo is taken, edge detection was never turned
    on, and the readings are not looked at. *)
Theorem main_intro_missing inputs w :
  folder_ready cfg w ->
  image_files (REAL_PATH cfg ++ "/assets/intro_1.png") = None ->
  exists w1,
    main inputs w
    = (Raise (IOError (REAL_PATH cfg ++ "/assets/intro_1.png")), w1) /\
    hd_error (w_log w1) = Some (EvStartPreview (SCREEN_W cfg, SCREEN_H cfg)) /\
    w_files w1 = w_files w /\
    count_captures (w_log w1) = count_captures (w_log w) /\
    w_detect w1 = w_detect w /\ w_overlays w1 = w_overlays w.
Proof.
  intros Hready Hopen.
  destruct (main_preview cfg image_files resample convert inputs w Hready)
    as (w1 & -> & Hlog & Hf & Ho & _ & Hdt & _ & _ & Hc & _).
  rewrite (bind_raise _ _ _ _ _
             (overlay_image_missing cfg image_files resample convert
                _ 3%Q 3 "RGB" _ Hopen)).
  exists w1. repeat split; assumption.
Qed.

(** A photo folder that is missing and cannot be created stops [main]
    before the camera is touched: after the welcome lines and the
    announcement of the folder, the exception of [os.makedirs] comes out;
    no preview, no overlay, no edge detection, no photo. *)
Theorem main_folder_unusable inputs w e :
  makedirs_refused cfg w e ->
  exists w1,
    main inputs w = (Raise e, w1) /\
    w_log w1 =
    (EvPrint ("Creating folder: " ++ SAVE_RAW_IMAGES_FOLDER cfg)
     :: EvPrint ""
     :: EvPrint "Use [Ctrl] + [\] to exit"
     :: EvPrint "Press the 'Take photo' button to take a photo"
     :: EvPrint ""
     :: EvPrint "(version 2.1)"
     :: EvPrint "Welcome to the photo booth!"
     :: w_log w) /\
    w_files w1 = w_files w /\ w_overlays w1 = w_overlays w /\
    w_detect w1 = w_detect w /\ w_dirs w1 = w_dirs w.
Proof.
  intros Href.
  unfold main, print. rewrite !bind_act.
  match goal with
  | |- context [bind (health_test_required_folders cfg) _ ?wa] =>
      assert (makedirs_refused cfg wa e) as Href' by exact Href;
      rewrite (bind_raise _ _ _ _ _ (health_test_refused cfg wa e Href'))
  end.
  eexists. split; [reflexivity|]. repeat split.
Qed.

End RunsOfMain.

(** ** The configuration file *)

Lemma required_config_dict entries :
  required_config (YMap entries)
  = match first_missing entries with
    | Some key => KeyError key
    | None =>
        match required_config (YMap entries) with
        | Got c => Got c
        | _ => TypeError
        end
    end /\
  (first_missing entries = None ->
   exists c, required_config (YMap entries) = Got c).
Proof.
  unfold required_config, first_missing, required_keys, getitem, and_then, find.
  repeat match goal with
         | |- context [dict_get ?k entries] =>
             destruct (dict_get k entries); [|split; [reflexivity | discriminate]]
         end.
  split; [reflexivity|]. intros _. eexists. reflexivity.
Qed.

(** Reading a configuration that is a mapping: the script starts exactly
    when the mapping has all the eleven keys, each global then holding the
    value of the key of its name; otherwise it prints the error block
    naming the first key, in reading order, that is missing, and exits.
    It never fails in another way. *)
Theorem read_config_mapping entries :
  match first_missing entries with
  | None =>
      exists c,
        read_config (Document (YMap entries)) = ([], Configured c) /\
        dict_get "CAMERA_BUTTON_PIN" entries = Some (raw_CAMERA_BUTTON_PIN c) /\
        dict_get "EXIT_BUTTON_PIN" entries = Some (raw_EXIT_BUTTON_PIN c) /\
        dict_get "PHOTO_W" entries = Some (raw_PHOTO_W c) /\
        dict_get "PHOTO_H" entries = Some (raw_PHOTO_H c) /\
        dict_get "SCREEN_W" entries = Some (raw_SCREEN_W c) /\
        dict_get "SCREEN_H" entries = Some (raw_SCREEN_H c) /\
        dict_get "CAMERA_ROTATION" entries = Some (raw_CAMERA_ROTATION c) /\
        dict_get "CAMERA_HFLIP" entries = Some (raw_CAMERA_HFLIP c) /\
        dict_get "DEBOUNCE_TIME" entries = Some (raw_DEBOUNCE_TIME c) /\
        dict_get "TESTMODE_AUTOPRESS_BUTTON" entries
        = Some (raw_TESTMODE_AUTOPRESS_BUTTON c) /\
        dict_get "SAVE_RAW_IMAGES_FOLDER" entries
        = Some (raw_SAVE_RAW_IMAGES_FOLDER c)
  | Some key =>
      In key required_keys /\ dict_get key entries = None /\
      exists printed,
        read_config (Document (YMap entries)) = (printed, SysExit) /\
        nth_error printed 3
        = Some (" - The expected configuration item " ++ str_KeyError key
                ++ " was not found.")
  end.
Proof.
  destruct (first_missing entries) as [key|] eqn:Hfirst.
  - pose proof Hfirst as Hfind. unfold first_missing in Hfind.
    apply find_some in Hfind. destruct Hfind as [Hin Hnone].
    split; [exact Hin|].
    split; [destruct (dict_get key entries); [discriminate | reflexivity]|].
    unfold read_config.
    rewrite (proj1 (required_config_dict entries)), Hfirst.
    eexists. split; reflexivity.
  - destruct (proj2 (required_config_dict entries) Hfirst) as [c Hc].
    exists c. unfold read_config. rewrite Hc.
    split; [reflexivity|].
    revert Hc.
    unfold required_config, getitem, and_then.
    repeat match goal with
           | |- context [dict_get ?k entries] =>
               destruct (dict_get k entries); [|discriminate]
           end.
    intros H. injection H as <-. repeat split; reflexivity.
Qed.

(** A configuration file that is not YAML has the parser's message
    printed and is then reported as lacking the first key,
    [CAMERA_BUTTON_PIN], whatever it holds: [CONFIG] is still the empty
    dict. *)
Theorem read_config_yaml_error message :
  exists block,
    read_config (YAMLError message) = (message :: block, SysExit) /\
    nth_error block 3
    = Some " - The expected configuration item 'CAMERA_BUTTON_PIN' was not found.".
Proof. eexists. split; reflexivity. Qed.

(** A configuration file that is YAML but not a mapping (an empty file, a
    scalar, a list) gets no error block: the first subscript raises
    [TypeError], which the [except KeyError] does not catch. *)
Theorem read_config_type_error d :
  (forall entries, d <> YMap entries) ->
  read_config (Document d) = ([], UncaughtTypeError).
Proof.
  intros Hd. destruct d; try reflexivity.
  exfalso. exact (Hd _ eq_refl).
Qed.

(** An empty configuration file. *)
Lemma read_config_type_error_witness :
  read_config (Document YNull) = ([], UncaughtTypeError).
Proof.
  apply (read_config_type_error YNull). intros entries H. discriminate H.
Defined.

(** ** Sample runs of the booth *)


Lemma main_intro_missing_witness :
  exists w1,
    main (booth_cfg false) no_files nearest same_mode
      [reading true 0 false 1] booth_world
    = (Raise (IOError "/home/pi/photo_booth/assets/intro_1.png"), w1) /\
    hd_error (w_log w1) = Some (EvStartPreview (800, 480)) /\
    w_files w1 = [] /\ w_detect w1 = [].
Proof.
  assert (folder_ready (booth_cfg false) booth_world) as Hready
      by (split; [discriminate | right; reflexivity]).
  destruct (main_intro_missing (booth_cfg false) no_files nearest same_mode
              [reading true 0 false 1] booth_world Hready eq_refl)
    as (w1 & Hrun & Hlog & Hf & _ & Hdet & _).
  exists w1. split; [exact Hrun|]. split; [exact Hlog|].
  split; [exact Hf | exact Hdet].
Defined.

(** [SAVE_RAW_IMAGES_FOLDER: ''] *)
Lemma main_folder_unusable_witness :
  exists w1,
    main no_folder_cfg booth_files nearest same_mode
      [reading true 0 false 1] booth_world
    = (Raise (FileNotFoundError ""), w1) /\
    hd_error (w_log w1) = Some (EvPrint "Creating folder: ") /\
    w_files w1 = [] /\ w_overlays w1 = [].
Proof.
  destruct (main_folder_unusable no_folder_cfg booth_files nearest same_mode
              [reading true 0 false 1] booth_world (FileNotFoundError "")
              (or_introl (conj eq_refl eq_refl)))
    as (w1 & Hrun & Hlog & Hf & Ho & _).
  exists w1. split; [exact Hrun|]. split; [now rewrite Hlog|].
  split; [exact Hf | exact Ho].
Defined.


